(** * The Song value object of Strawberry (src/core/song.cpp)

    A shallow embedding of [Song::Private], its accessors and setters, the
    wire adapter ([ToProtobuf] / [InitFromProtobuf]), the relational and
    full-text adapters ([BindToQuery] / [InitFromQuery], [BindToFtsQuery]),
    the MTP adapter ([ToMTP] / [InitFromMTP]), the merge of engine metadata
    ([MergeFromSimpleMetaBundle]) and the comparison predicates, followed by
    the properties established about them.

    Conventions of the embedding
    - [int] and [qint64] values are integers in [Z]; the only arithmetic the
      code performs on them ([end_ - beginning_], [beginning_ + v]) is on
      [qint64] and is written with its 64-bit two's complement wrap-around.
    - [Song] is a handle on a [QSharedDataPointer<Private>]: a write detaches
      the payload first, so a [Song] behaves as a value and is modelled by
      its payload record.
    - A [QString] is its sequence of UTF-8 code units.  The null and the
      empty [QString] are identified: [isEmpty] and [operator==] do not tell
      them apart. *)

From Stdlib Require Import ZArith String List Bool Lia DecimalString.
Import ListNotations.
Open Scope string_scope.
Open Scope Z_scope.

(** ** Qt value types used by song.cpp *)

Module Qt.

Definition QString := string.

Definition isEmpty (s : QString) : bool := String.eqb s EmptyString.

(** [QUrl], held in its encoded form ([toEncoded] / [fromEncoded]). *)
Definition QUrl := string.

Definition toEncoded (u : QUrl) : string := u.
Definition fromEncoded (b : string) : QUrl := b.

Inductive QImage : Type :=
| NullImage
| ImageData (bytes : list Byte.byte).

(** Two's complement reduction of an integer to [w] bits. *)
Definition wrap (w : Z) (z : Z) : Z := (z + 2 ^ (w - 1)) mod 2 ^ w - 2 ^ (w - 1).

Definition wrap32 : Z -> Z := wrap 32.
Definition wrap64 : Z -> Z := wrap 64.

Definition in_int64 (z : Z) : Prop := - 2 ^ 63 <= z < 2 ^ 63.

(** [QVariant], restricted to the kinds of value song.cpp binds and reads. *)
Inductive QVariant : Type :=
| QV_Invalid
| QV_Int (z : Z)
| QV_LongLong (z : Z)
| QV_String (s : QString)
| QV_ByteArray (b : string).

Definition isNull (v : QVariant) : bool :=
  match v with
  | QV_Invalid => true
  | _ => false
  end.

(** [QString::toLongLong]: the decimal value, 0 when the text is not a number. *)
Definition parse_number (s : string) : Z :=
  match NilEmpty.int_of_string s with
  | Some d => Z.of_int d
  | None => 0
  end.

Definition number (z : Z) : QString := NilZero.string_of_int (Z.to_int z).

Definition toLongLong (v : QVariant) : Z :=
  match v with
  | QV_Invalid => 0
  | QV_Int z => z
  | QV_LongLong z => z
  | QV_String s => let z := parse_number s in if Z.eqb (wrap64 z) z then z else 0
  | QV_ByteArray b => let z := parse_number b in if Z.eqb (wrap64 z) z then z else 0
  end.

Definition toInt (v : QVariant) : Z :=
  match v with
  | QV_Invalid => 0
  | QV_Int z => z
  | QV_LongLong z => wrap32 z
  | QV_String s => let z := parse_number s in if Z.eqb (wrap32 z) z then z else 0
  | QV_ByteArray b => let z := parse_number b in if Z.eqb (wrap32 z) z then z else 0
  end.

Definition toBool (v : QVariant) : bool :=
  match v with
  | QV_Invalid => false
  | QV_Int z => negb (Z.eqb z 0)
  | QV_LongLong z => negb (Z.eqb z 0)
  | QV_String s => negb (String.eqb s EmptyString || String.eqb s "0" || String.eqb s "false")
  | QV_ByteArray b => negb (String.eqb b EmptyString || String.eqb b "0" || String.eqb b "false")
  end.

Definition toString (v : QVariant) : QString :=
  match v with
  | QV_Invalid => EmptyString
  | QV_Int z => number z
  | QV_LongLong z => number z
  | QV_String s => s
  | QV_ByteArray b => b
  end.

End Qt.

Import Qt.

(** ** Logging ([qLog(Error) << a << b]) *)

Inductive LogLevel : Type := Debug | Error.

(** One log line: its level and the items streamed into it. *)
Definition LogEntry : Type := (LogLevel * list string)%type.

(** ** The record *)

Module Song.

(** [Song::FileType], by the enumerators song.cpp names. *)
Inductive FileType : Type :=
| Type_Unknown
| Type_Asf
| Type_Flac
| Type_Mp4
| Type_Mpc
| Type_Mpeg
| Type_OggFlac
| Type_OggSpeex
| Type_OggVorbis
| Type_OggOpus
| Type_Aiff
| Type_Wav
| Type_TrueAudio
| Type_Cdda.

(** What song.cpp takes from the rest of the application and from the
    machine it runs on: the portable-mode constant, locator arithmetic, the
    cover cache on disk and the numbering of [FileType] (song.h). *)
Record Env : Type := mkEnv {
  kIsPortable : bool;
    (* Application::kIsPortable *)
  resolved_against_application_dir : QUrl -> QUrl;
    (* QUrl::fromLocalFile(applicationDirPath() + "/").resolved(v) *)
  UrlOnSameDriveAsStrawberry : QUrl -> bool;
  GetRelativePathToStrawberryBin : QUrl -> QUrl;
  local_file_name : QUrl -> QString;
    (* QFileInfo(url.toLocalFile()).fileName() *)
  cover_cache_path : QString -> QString -> QString;
    (* ImageCacheDir() + "/" + Sha1CoverHash(artist, album).toHex() + ".jpg" *)
  file_exists : QString -> bool;
    (* QFile::exists *)
  FileType_of_int : Z -> FileType;
  int_of_FileType : FileType -> Z
}.

Definition kManuallyUnsetCover : QString := "(unset)".
Definition kEmbeddedCover : QString := "(embedded)".

Definition kColumns : list string :=
  [ "title"; "album"; "artist"; "albumartist"; "track"; "disc"; "year";
    "originalyear"; "genre"; "compilation"; "composer"; "performer";
    "grouping"; "comment";
    "beginning"; "length";
    "bitrate"; "samplerate"; "bitdepth";
    "directory_id"; "filename"; "filetype"; "filesize"; "mtime"; "ctime";
    "unavailable";
    "playcount"; "skipcount"; "lastplayed";
    "compilation_detected"; "compilation_on"; "compilation_off";
    "compilation_effective";
    "art_automatic"; "art_manual";
    "effective_albumartist"; "effective_originalyear";
    "cue_path" ].

(** [struct Song::Private] *)
Record Private : Type := mkPrivate {
  valid_ : bool;
  id_ : Z;
  album_id_ : Z;
  title_ : QString;
  album_ : QString;
  artist_ : QString;
  albumartist_ : QString;
  track_ : Z;
  disc_ : Z;
  year_ : Z;
  originalyear_ : Z;
  genre_ : QString;
  compilation_ : bool;
  composer_ : QString;
  performer_ : QString;
  grouping_ : QString;
  comment_ : QString;
  beginning_ : Z;
  end_ : Z;
  bitrate_ : Z;
  samplerate_ : Z;
  bitdepth_ : Z;
  directory_id_ : Z;
  basefilename_ : QString;
  url_ : QUrl;
  filetype_ : FileType;
  filesize_ : Z;
  mtime_ : Z;
  ctime_ : Z;
  unavailable_ : bool;
  playcount_ : Z;
  skipcount_ : Z;
  lastplayed_ : Z;
  compilation_detected_ : bool;
  compilation_on_ : bool;
  compilation_off_ : bool;
  art_automatic_ : QString;
  art_manual_ : QString;
  cue_path_ : QString;
  image_ : QImage;
  init_from_file_ : bool;
  suspicious_tags_ : bool
}.

Definition Song : Type := Private.

(** [Song::Private::Private()].  The member initialiser list names every
    scalar member except [bitdepth_]; that member is default-initialised,
    so it holds whatever the allocated storage held, [indeterminate]. *)
Definition Private_ctor (indeterminate : Z) : Private :=
  {| valid_ := false;
     id_ := -1;
     album_id_ := -1;
     title_ := EmptyString;
     album_ := EmptyString;
     artist_ := EmptyString;
     albumartist_ := EmptyString;
     track_ := -1;
     disc_ := -1;
     year_ := -1;
     originalyear_ := -1;
     genre_ := EmptyString;
     compilation_ := false;
     composer_ := EmptyString;
     performer_ := EmptyString;
     grouping_ := EmptyString;
     comment_ := EmptyString;
     beginning_ := 0;
     end_ := -1;
     bitrate_ := -1;
     samplerate_ := -1;
     bitdepth_ := indeterminate;
     directory_id_ := -1;
     basefilename_ := EmptyString;
     url_ := EmptyString;
     filetype_ := Type_Unknown;
     filesize_ := -1;
     mtime_ := -1;
     ctime_ := -1;
     unavailable_ := false;
     playcount_ := 0;
     skipcount_ := 0;
     lastplayed_ := -1;
     compilation_detected_ := false;
     compilation_on_ := false;
     compilation_off_ := false;
     art_automatic_ := EmptyString;
     art_manual_ := EmptyString;
     cue_path_ := EmptyString;
     image_ := NullImage;
     init_from_file_ := false;
     suspicious_tags_ := false |}.

(** [Song::Song() : d(new Private)] *)
Definition Song_ctor (indeterminate : Z) : Song := Private_ctor indeterminate.

(** *** Member assignment, [d->member_ = v]

    [rebuild d] spells the record out member by member; the assignment to
    one member is [rebuild d] with that member's projection replaced. *)
Definition rebuild (d : Private) : Private :=
  mkPrivate (valid_ d) (id_ d) (album_id_ d) (title_ d) (album_ d) (artist_ d) (albumartist_ d)
    (track_ d) (disc_ d) (year_ d) (originalyear_ d) (genre_ d) (compilation_ d) (composer_ d)
    (performer_ d) (grouping_ d) (comment_ d) (beginning_ d) (end_ d) (bitrate_ d)
    (samplerate_ d) (bitdepth_ d) (directory_id_ d) (basefilename_ d) (url_ d) (filetype_ d)
    (filesize_ d) (mtime_ d) (ctime_ d) (unavailable_ d) (playcount_ d) (skipcount_ d)
    (lastplayed_ d) (compilation_detected_ d) (compilation_on_ d) (compilation_off_ d)
    (art_automatic_ d) (art_manual_ d) (cue_path_ d) (image_ d) (init_from_file_ d)
    (suspicious_tags_ d).

Ltac assignment member :=
  let v := fresh "v" in
  let d := fresh "d" in
  intros v d;
  let whole := eval cbv [rebuild] in (rebuild d) in
  match eval pattern (member d) in whole with
  | ?others _ => let r := eval cbv beta in (others v) in exact r
  end.

Definition assign_valid_ : bool -> Private -> Private := ltac:(assignment valid_).
Definition assign_id_ : Z -> Private -> Private := ltac:(assignment id_).
Definition assign_album_id_ : Z -> Private -> Private := ltac:(assignment album_id_).
Definition assign_title_ : QString -> Private -> Private := ltac:(assignment title_).
Definition assign_album_ : QString -> Private -> Private := ltac:(assignment album_).
Definition assign_artist_ : QString -> Private -> Private := ltac:(assignment artist_).
Definition assign_albumartist_ : QString -> Private -> Private := ltac:(assignment albumartist_).
Definition assign_track_ : Z -> Private -> Private := ltac:(assignment track_).
Definition assign_disc_ : Z -> Private -> Private := ltac:(assignment disc_).
Definition assign_year_ : Z -> Private -> Private := ltac:(assignment year_).
Definition assign_originalyear_ : Z -> Private -> Private := ltac:(assignment originalyear_).
Definition assign_genre_ : QString -> Private -> Private := ltac:(assignment genre_).
Definition assign_compilation_ : bool -> Private -> Private := ltac:(assignment compilation_).
Definition assign_composer_ : QString -> Private -> Private := ltac:(assignment composer_).
Definition assign_performer_ : QString -> Private -> Private := ltac:(assignment performer_).
Definition assign_grouping_ : QString -> Private -> Private := ltac:(assignment grouping_).
Definition assign_comment_ : QString -> Private -> Private := ltac:(assignment comment_).
Definition assign_beginning_ : Z -> Private -> Private := ltac:(assignment beginning_).
Definition assign_end_ : Z -> Private -> Private := ltac:(assignment end_).
Definition assign_bitrate_ : Z -> Private -> Private := ltac:(assignment bitrate_).
Definition assign_samplerate_ : Z -> Private -> Private := ltac:(assignment samplerate_).
Definition assign_bitdepth_ : Z -> Private -> Private := ltac:(assignment bitdepth_).
Definition assign_directory_id_ : Z -> Private -> Private := ltac:(assignment directory_id_).
Definition assign_basefilename_ : QString -> Private -> Private := ltac:(assignment basefilename_).
Definition assign_url_ : QUrl -> Private -> Private := ltac:(assignment url_).
Definition assign_filetype_ : FileType -> Private -> Private := ltac:(assignment filetype_).
Definition assign_filesize_ : Z -> Private -> Private := ltac:(assignment filesize_).
Definition assign_mtime_ : Z -> Private -> Private := ltac:(assignment mtime_).
Definition assign_ctime_ : Z -> Private -> Private := ltac:(assignment ctime_).
Definition assign_unavailable_ : bool -> Private -> Private := ltac:(assignment unavailable_).
Definition assign_playcount_ : Z -> Private -> Private := ltac:(assignment playcount_).
Definition assign_skipcount_ : Z -> Private -> Private := ltac:(assignment skipcount_).
Definition assign_lastplayed_ : Z -> Private -> Private := ltac:(assignment lastplayed_).
Definition assign_compilation_detected_ : bool -> Private -> Private :=
  ltac:(assignment compilation_detected_).
Definition assign_compilation_on_ : bool -> Private -> Private := ltac:(assignment compilation_on_).
Definition assign_compilation_off_ : bool -> Private -> Private :=
  ltac:(assignment compilation_off_).
Definition assign_art_automatic_ : QString -> Private -> Private :=
  ltac:(assignment art_automatic_).
Definition assign_art_manual_ : QString -> Private -> Private := ltac:(assignment art_manual_).
Definition assign_cue_path_ : QString -> Private -> Private := ltac:(assignment cue_path_).
Definition assign_image_ : QImage -> Private -> Private := ltac:(assignment image_).
Definition assign_init_from_file_ : bool -> Private -> Private :=
  ltac:(assignment init_from_file_).
Definition assign_suspicious_tags_ : bool -> Private -> Private :=
  ltac:(assignment suspicious_tags_).

(** *** Accessors *)

Definition is_valid (s : Song) : bool := valid_ s.
Definition is_unavailable (s : Song) : bool := unavailable_ s.
Definition id (s : Song) : Z := id_ s.
Definition title (s : Song) : QString := title_ s.
Definition album (s : Song) : QString := album_ s.
Definition effective_album (s : Song) : QString :=
  if isEmpty (album_ s) then title_ s else album_ s.
Definition artist (s : Song) : QString := artist_ s.
Definition albumartist (s : Song) : QString := albumartist_ s.
Definition effective_albumartist (s : Song) : QString :=
  if isEmpty (albumartist_ s) then artist_ s else albumartist_ s.
Definition composer (s : Song) : QString := composer_ s.
Definition performer (s : Song) : QString := performer_ s.
Definition grouping (s : Song) : QString := grouping_ s.
Definition track (s : Song) : Z := track_ s.
Definition disc (s : Song) : Z := disc_ s.
Definition year (s : Song) : Z := year_ s.
Definition originalyear (s : Song) : Z := originalyear_ s.
Definition effective_originalyear (s : Song) : Z :=
  if originalyear_ s <? 0 then year_ s else originalyear_ s.
Definition genre (s : Song) : QString := genre_ s.
Definition comment (s : Song) : QString := comment_ s.
Definition is_compilation (s : Song) : bool :=
  (compilation_ s || compilation_detected_ s || compilation_on_ s) && negb (compilation_off_ s).
Definition playlist_albumartist (s : Song) : QString :=
  if is_compilation s then albumartist_ s else effective_albumartist s.
Definition playcount (s : Song) : Z := playcount_ s.
Definition skipcount (s : Song) : Z := skipcount_ s.
Definition lastplayed (s : Song) : Z := lastplayed_ s.
Definition cue_path (s : Song) : QString := cue_path_ s.
Definition has_cue (s : Song) : bool := negb (isEmpty (cue_path_ s)).
Definition album_id (s : Song) : Z := album_id_ s.
Definition beginning_nanosec (s : Song) : Z := beginning_ s.
Definition end_nanosec (s : Song) : Z := end_ s.
Definition length_nanosec (s : Song) : Z := wrap64 (end_ s - beginning_ s).
Definition bitrate (s : Song) : Z := bitrate_ s.
Definition samplerate (s : Song) : Z := samplerate_ s.
Definition bitdepth (s : Song) : Z := bitdepth_ s.
Definition directory_id (s : Song) : Z := directory_id_ s.
Definition url (s : Song) : QUrl := url_ s.
Definition basefilename (s : Song) : QString := basefilename_ s.
Definition mtime (s : Song) : Z := mtime_ s mod 2 ^ 32.
Definition ctime (s : Song) : Z := ctime_ s mod 2 ^ 32.
Definition filesize (s : Song) : Z := filesize_ s.
Definition filetype (s : Song) : FileType := filetype_ s.
Definition is_cdda (s : Song) : bool :=
  match filetype_ s with Type_Cdda => true | _ => false end.
Definition is_collection_song (s : Song) : bool := negb (is_cdda s) && negb (id s =? -1).
Definition art_automatic (s : Song) : QString := art_automatic_ s.
Definition art_manual (s : Song) : QString := art_manual_ s.
Definition has_manually_unset_cover (s : Song) : bool :=
  String.eqb (art_manual_ s) kManuallyUnsetCover.
Definition has_embedded_cover (s : Song) : bool := String.eqb (art_automatic_ s) kEmbeddedCover.
Definition image (s : Song) : QImage := image_ s.

(** *** Setters *)

Definition set_id (v : Z) (s : Song) : Song := assign_id_ v s.
Definition set_album_id (v : Z) (s : Song) : Song := assign_album_id_ v s.
Definition set_valid (v : bool) (s : Song) : Song := assign_valid_ v s.

Definition set_title (v : QString) (s : Song) : Song := assign_title_ v s.
Definition set_album (v : QString) (s : Song) : Song := assign_album_ v s.
Definition set_artist (v : QString) (s : Song) : Song := assign_artist_ v s.
Definition set_albumartist (v : QString) (s : Song) : Song := assign_albumartist_ v s.
Definition set_track (v : Z) (s : Song) : Song := assign_track_ v s.
Definition set_disc (v : Z) (s : Song) : Song := assign_disc_ v s.
Definition set_year (v : Z) (s : Song) : Song := assign_year_ v s.
Definition set_originalyear (v : Z) (s : Song) : Song := assign_originalyear_ v s.
Definition set_genre (v : QString) (s : Song) : Song := assign_genre_ v s.
Definition set_compilation (v : bool) (s : Song) : Song := assign_compilation_ v s.
Definition set_composer (v : QString) (s : Song) : Song := assign_composer_ v s.
Definition set_performer (v : QString) (s : Song) : Song := assign_performer_ v s.
Definition set_grouping (v : QString) (s : Song) : Song := assign_grouping_ v s.
Definition set_comment (v : QString) (s : Song) : Song := assign_comment_ v s.

Definition set_beginning_nanosec (v : Z) (s : Song) : Song := assign_beginning_ (Z.max 0 v) s.
Definition set_end_nanosec (v : Z) (s : Song) : Song := assign_end_ v s.
Definition set_length_nanosec (v : Z) (s : Song) : Song :=
  assign_end_ (wrap64 (beginning_ s + v)) s.

Definition set_bitrate (v : Z) (s : Song) : Song := assign_bitrate_ v s.
Definition set_samplerate (v : Z) (s : Song) : Song := assign_samplerate_ v s.
Definition set_bitdepth (v : Z) (s : Song) : Song := assign_bitdepth_ v s.

Definition set_directory_id (v : Z) (s : Song) : Song := assign_directory_id_ v s.
Definition set_url (env : Env) (v : QUrl) (s : Song) : Song :=
  if kIsPortable env
  then assign_url_ (resolved_against_application_dir env v) s
  else assign_url_ v s.
Definition set_basefilename (v : QString) (s : Song) : Song := assign_basefilename_ v s.
Definition set_filetype (v : FileType) (s : Song) : Song := assign_filetype_ v s.
Definition set_filesize (v : Z) (s : Song) : Song := assign_filesize_ v s.
Definition set_mtime (v : Z) (s : Song) : Song := assign_mtime_ v s.
Definition set_ctime (v : Z) (s : Song) : Song := assign_ctime_ v s.
Definition set_unavailable (v : bool) (s : Song) : Song := assign_unavailable_ v s.

Definition set_playcount (v : Z) (s : Song) : Song := assign_playcount_ v s.
Definition set_skipcount (v : Z) (s : Song) : Song := assign_skipcount_ v s.
Definition set_lastplayed (v : Z) (s : Song) : Song := assign_lastplayed_ v s.

Definition set_compilation_detected (v : bool) (s : Song) : Song :=
  assign_compilation_detected_ v s.
Definition set_compilation_on (v : bool) (s : Song) : Song := assign_compilation_on_ v s.
Definition set_compilation_off (v : bool) (s : Song) : Song := assign_compilation_off_ v s.

Definition set_art_automatic (v : QString) (s : Song) : Song := assign_art_automatic_ v s.
Definition set_art_manual (v : QString) (s : Song) : Song := assign_art_manual_ v s.
Definition set_cue_path (v : QString) (s : Song) : Song := assign_cue_path_ v s.

Definition set_image (i : QImage) (s : Song) : Song := assign_image_ i s.

(** [Song::InitArtManual]: with no cover of either kind, adopt the cached
    cover for (artist, album) when that file exists. *)
Definition InitArtManual (env : Env) (s : Song) : Song :=
  if isEmpty (art_manual_ s) && isEmpty (art_automatic_ s)
  then
    let path := cover_cache_path env (artist_ s) (album_ s) in
    if file_exists env path then assign_art_manual_ path s else s
  else s.

(** ** Wire adapter *)

(** [pb::tagreader::SongMetadata] (tagreadermessages.proto), by the fields
    song.cpp reads and writes.  The two fields whose presence
    [InitFromProtobuf] tests carry it as an [option]. *)
Record SongMetadata : Type := mkSongMetadata {
  pb_valid : bool;
  pb_title : string;
  pb_album : string;
  pb_artist : string;
  pb_albumartist : string;
  pb_composer : string;
  pb_performer : string;
  pb_grouping : string;
  pb_track : Z;
  pb_disc : Z;
  pb_year : Z;
  pb_originalyear : Z;
  pb_genre : string;
  pb_comment : string;
  pb_compilation : bool;
  pb_playcount_opt : option Z;
  pb_skipcount : Z;
  pb_lastplayed : Z;
  pb_length_nanosec : Z;
  pb_bitrate : Z;
  pb_samplerate : Z;
  pb_bitdepth : Z;
  pb_url : string;
  pb_basefilename : string;
  pb_mtime : Z;
  pb_ctime : Z;
  pb_filesize : Z;
  pb_suspicious_tags : bool;
  pb_art_automatic_opt : option string;
  pb_filetype : Z
}.

Definition has_art_automatic (pb : SongMetadata) : bool :=
  match pb_art_automatic_opt pb with Some _ => true | None => false end.
Definition pb_art_automatic (pb : SongMetadata) : string :=
  match pb_art_automatic_opt pb with Some a => a | None => EmptyString end.
Definition has_playcount (pb : SongMetadata) : bool :=
  match pb_playcount_opt pb with Some _ => true | None => false end.
Definition pb_playcount (pb : SongMetadata) : Z :=
  match pb_playcount_opt pb with Some n => n | None => 0 end.

(** The transcoding macros of core/messagehandler.h; on code-unit sequences
    they copy. *)
Definition QStringFromStdString (s : string) : QString := s.
Definition DataCommaSizeFromQString (s : QString) : string := s.

Definition InitFromProtobuf (env : Env) (pb : SongMetadata) (s : Song) : Song :=
  let d := assign_init_from_file_ true s in
  let d := assign_valid_ (pb_valid pb) d in
  let d := assign_title_ (QStringFromStdString (pb_title pb)) d in
  let d := assign_album_ (QStringFromStdString (pb_album pb)) d in
  let d := assign_artist_ (QStringFromStdString (pb_artist pb)) d in
  let d := assign_albumartist_ (QStringFromStdString (pb_albumartist pb)) d in
  let d := assign_composer_ (QStringFromStdString (pb_composer pb)) d in
  let d := assign_performer_ (QStringFromStdString (pb_performer pb)) d in
  let d := assign_grouping_ (QStringFromStdString (pb_grouping pb)) d in
  let d := assign_track_ (pb_track pb) d in
  let d := assign_disc_ (pb_disc pb) d in
  let d := assign_year_ (pb_year pb) d in
  let d := assign_originalyear_ (pb_originalyear pb) d in
  let d := assign_genre_ (QStringFromStdString (pb_genre pb)) d in
  let d := assign_comment_ (QStringFromStdString (pb_comment pb)) d in
  let d := assign_compilation_ (pb_compilation pb) d in
  let d := assign_skipcount_ (pb_skipcount pb) d in
  let d := assign_lastplayed_ (pb_lastplayed pb) d in
  let d := set_length_nanosec (pb_length_nanosec pb) d in
  let d := assign_bitrate_ (pb_bitrate pb) d in
  let d := assign_samplerate_ (pb_samplerate pb) d in
  let d := assign_bitdepth_ (pb_bitdepth pb) d in
  let d := set_url env (fromEncoded (pb_url pb)) d in
  let d := assign_basefilename_ (QStringFromStdString (pb_basefilename pb)) d in
  let d := assign_mtime_ (pb_mtime pb) d in
  let d := assign_ctime_ (pb_ctime pb) d in
  let d := assign_filesize_ (pb_filesize pb) d in
  let d := assign_suspicious_tags_ (pb_suspicious_tags pb) d in
  let d := assign_filetype_ (FileType_of_int env (pb_filetype pb)) d in
  let d := if has_art_automatic pb
           then assign_art_automatic_ (QStringFromStdString (pb_art_automatic pb)) d
           else d in
  let d := if has_playcount pb then assign_playcount_ (pb_playcount pb) d else d in
  InitArtManual env d.

(** [Song::ToProtobuf]: every modelled field of the message is set, so the
    result does not depend on what the message held before. *)
Definition ToProtobuf (env : Env) (s : Song) : SongMetadata :=
  {| pb_valid := valid_ s;
     pb_title := DataCommaSizeFromQString (title_ s);
     pb_album := DataCommaSizeFromQString (album_ s);
     pb_artist := DataCommaSizeFromQString (artist_ s);
     pb_albumartist := DataCommaSizeFromQString (albumartist_ s);
     pb_composer := DataCommaSizeFromQString (composer_ s);
     pb_performer := DataCommaSizeFromQString (performer_ s);
     pb_grouping := DataCommaSizeFromQString (grouping_ s);
     pb_track := track_ s;
     pb_disc := disc_ s;
     pb_year := year_ s;
     pb_originalyear := originalyear_ s;
     pb_genre := DataCommaSizeFromQString (genre_ s);
     pb_comment := DataCommaSizeFromQString (comment_ s);
     pb_compilation := compilation_ s;
     pb_playcount_opt := Some (playcount_ s);
     pb_skipcount := skipcount_ s;
     pb_lastplayed := lastplayed_ s;
     pb_length_nanosec := length_nanosec s;
     pb_bitrate := bitrate_ s;
     pb_samplerate := samplerate_ s;
     pb_bitdepth := bitdepth_ s;
     pb_url := toEncoded (url_ s);
     pb_basefilename := DataCommaSizeFromQString (basefilename_ s);
     pb_mtime := mtime_ s;
     pb_ctime := ctime_ s;
     pb_filesize := filesize_ s;
     pb_suspicious_tags := suspicious_tags_ s;
     pb_art_automatic_opt := Some (DataCommaSizeFromQString (art_automatic_ s));
     pb_filetype := int_of_FileType env (filetype_ s) |}.

(** ** Relational adapter *)

(** [SqlRow] (collection/sqlrow.h): the values of one result row.  [value]
    indexes [columns_]; an index outside the row yields an invalid variant. *)
Record SqlRow : Type := mkSqlRow { columns_ : list QVariant }.

Definition value (q : SqlRow) (n : Z) : QVariant :=
  if n <? 0 then QV_Invalid else nth (Z.to_nat n) (columns_ q) QV_Invalid.

Definition size (q : SqlRow) : Z := Z.of_nat (List.length (columns_ q)).

(** The macros of [InitFromQuery]. *)
Definition tostr (q : SqlRow) (n : Z) : QString :=
  if isNull (value q n) then EmptyString else toString (value q n).
Definition toint (q : SqlRow) (n : Z) : Z :=
  if isNull (value q n) then -1 else toInt (value q n).
Definition tolonglong (q : SqlRow) (n : Z) : Z :=
  if isNull (value q n) then -1 else toLongLong (value q n).

(** The body of the loop of [InitFromQuery] below its bounds test: the
    chain of comparisons on the column name.  The state is the payload and
    the log written so far. *)
Definition InitFromQuery_column (env : Env) (q : SqlRow) (name : string) (x : Z)
    (st : Song * list LogEntry) : Song * list LogEntry :=
  let d := fst st in
  let log := snd st in
  if String.eqb name "title" then (assign_title_ (tostr q x) d, log)
  else if String.eqb name "album" then (assign_album_ (tostr q x) d, log)
  else if String.eqb name "artist" then (assign_artist_ (tostr q x) d, log)
  else if String.eqb name "albumartist" then (assign_albumartist_ (tostr q x) d, log)
  else if String.eqb name "track" then (assign_track_ (toint q x) d, log)
  else if String.eqb name "disc" then (assign_disc_ (toint q x) d, log)
  else if String.eqb name "year" then (assign_year_ (toint q x) d, log)
  else if String.eqb name "originalyear" then (assign_originalyear_ (toint q x) d, log)
  else if String.eqb name "genre" then (assign_genre_ (tostr q x) d, log)
  else if String.eqb name "compilation" then (assign_compilation_ (toBool (value q x)) d, log)
  else if String.eqb name "composer" then (assign_composer_ (tostr q x) d, log)
  else if String.eqb name "performer" then (assign_performer_ (tostr q x) d, log)
  else if String.eqb name "grouping" then (assign_grouping_ (tostr q x) d, log)
  else if String.eqb name "comment" then (assign_comment_ (tostr q x) d, log)
  else if String.eqb name "beginning" then
    (assign_beginning_ (if isNull (value q x) then 0 else toLongLong (value q x)) d, log)
  else if String.eqb name "length" then (set_length_nanosec (tolonglong q x) d, log)
  else if String.eqb name "bitrate" then (assign_bitrate_ (toint q x) d, log)
  else if String.eqb name "samplerate" then (assign_samplerate_ (toint q x) d, log)
  else if String.eqb name "bitdepth" then (assign_bitdepth_ (toint q x) d, log)
  else if String.eqb name "directory_id" then (assign_directory_id_ (toint q x) d, log)
  else if String.eqb name "filename" then
    let d := set_url env (fromEncoded (tostr q x)) d in
    (assign_basefilename_ (local_file_name env (url_ d)) d, log)
  else if String.eqb name "filetype" then
    (assign_filetype_ (FileType_of_int env (toInt (value q x))) d, log)
  else if String.eqb name "filesize" then (assign_filesize_ (toint q x) d, log)
  else if String.eqb name "mtime" then (assign_mtime_ (toint q x) d, log)
  else if String.eqb name "ctime" then (assign_ctime_ (toint q x) d, log)
  else if String.eqb name "unavailable" then (assign_unavailable_ (toBool (value q x)) d, log)
  else if String.eqb name "playcount" then
    (assign_playcount_ (if isNull (value q x) then 0 else toInt (value q x)) d, log)
  else if String.eqb name "skipcount" then
    (assign_skipcount_ (if isNull (value q x) then 0 else toInt (value q x)) d, log)
  else if String.eqb name "lastplayed" then (assign_lastplayed_ (toint q x) d, log)
  else if String.eqb name "compilation_detected" then
    (assign_compilation_detected_ (toBool (value q x)) d, log)
  else if String.eqb name "compilation_on" then
    (assign_compilation_on_ (toBool (value q x)) d, log)
  else if String.eqb name "compilation_off" then
    (assign_compilation_off_ (toBool (value q x)) d, log)
  else if String.eqb name "compilation_effective" then (d, log)
  else if String.eqb name "art_automatic" then
    (assign_art_automatic_ (toString (value q x)) d, log)
  else if String.eqb name "art_manual" then (assign_art_manual_ (toString (value q x)) d, log)
  else if String.eqb name "effective_albumartist" then (d, log)
  else if String.eqb name "effective_originalyear" then (d, log)
  else if String.eqb name "cue_path" then (assign_cue_path_ (tostr q x) d, log)
  else (d, (log ++ [(Error, ["Forgot to handle"; name])])%list).

(** The loop [for (i = 0; i < kColumns.size(); i++)], run over the columns
    not visited yet; [x] is the row index of the column visited last. *)
Fixpoint InitFromQuery_loop (env : Env) (q : SqlRow) (columns : list string) (x : Z)
    (st : Song * list LogEntry) : Song * list LogEntry :=
  match columns with
  | [] => st
  | name :: later =>
      let x := x + 1 in
      if x >=? size q
      then (fst st, (snd st ++ [(Error, ["Skipping"; name])])%list)
      else InitFromQuery_loop env q later x (InitFromQuery_column env q name x st)
  end.

(** [Song::InitFromQuery]; returns the record and the lines logged. *)
Definition InitFromQuery (env : Env) (q : SqlRow) (reliable_metadata : bool) (col : Z)
    (s : Song) : Song * list LogEntry :=
  let d := assign_id_ (toint q col) s in
  let st := InitFromQuery_loop env q kColumns col (d, []) in
  let d := assign_valid_ true (fst st) in
  let d := assign_init_from_file_ reliable_metadata d in
  (InitArtManual env d, snd st).

(** [QSqlQuery], by its bound values: placeholder and value, in binding
    order; binding a placeholder again replaces its value. *)
Definition QSqlQuery : Type := list (string * QVariant).

Fixpoint bindValue (placeholder : string) (v : QVariant) (query : QSqlQuery) : QSqlQuery :=
  match query with
  | [] => [(placeholder, v)]
  | (p, w) :: later =>
      if String.eqb p placeholder then (p, v) :: later
      else (p, w) :: bindValue placeholder v later
  end.

Fixpoint boundValue (placeholder : string) (query : QSqlQuery) : QVariant :=
  match query with
  | [] => QV_Invalid
  | (p, w) :: later => if String.eqb p placeholder then w else boundValue placeholder later
  end.

(** The macros of [BindToQuery].  [strval] replaces a null string by the
    empty one, which are the same value here. *)
Definition strval (x : QString) : QVariant := QV_String x.
Definition intval (x : Z) : Z := if x <=? 0 then -1 else x.
Definition notnullintval (x : Z) : QVariant := if x =? -1 then QV_Invalid else QV_Int x.

Definition of_bool (b : bool) : QVariant := QV_Int (if b then 1 else 0).

Definition BindToQuery (env : Env) (s : Song) (query : QSqlQuery) : QSqlQuery :=
  let query := bindValue ":title" (strval (title_ s)) query in
  let query := bindValue ":album" (strval (album_ s)) query in
  let query := bindValue ":artist" (strval (artist_ s)) query in
  let query := bindValue ":albumartist" (strval (albumartist_ s)) query in
  let query := bindValue ":track" (QV_Int (intval (track_ s))) query in
  let query := bindValue ":disc" (QV_Int (intval (disc_ s))) query in
  let query := bindValue ":year" (QV_Int (intval (year_ s))) query in
  let query := bindValue ":originalyear" (QV_Int (intval (originalyear_ s))) query in
  let query := bindValue ":genre" (strval (genre_ s)) query in
  let query := bindValue ":compilation" (of_bool (compilation_ s)) query in
  let query := bindValue ":composer" (strval (composer_ s)) query in
  let query := bindValue ":performer" (strval (performer_ s)) query in
  let query := bindValue ":grouping" (strval (grouping_ s)) query in
  let query := bindValue ":comment" (strval (comment_ s)) query in
  let query := bindValue ":beginning" (QV_LongLong (beginning_ s)) query in
  let query := bindValue ":length" (QV_LongLong (intval (length_nanosec s))) query in
  let query := bindValue ":bitrate" (QV_Int (intval (bitrate_ s))) query in
  let query := bindValue ":samplerate" (QV_Int (intval (samplerate_ s))) query in
  let query := bindValue ":bitdepth" (QV_Int (intval (bitdepth_ s))) query in
  let query := bindValue ":directory_id" (notnullintval (directory_id_ s)) query in
  let query :=
    if kIsPortable env && UrlOnSameDriveAsStrawberry env (url_ s)
    then bindValue ":filename"
           (QV_ByteArray (toEncoded (GetRelativePathToStrawberryBin env (url_ s)))) query
    else bindValue ":filename" (QV_ByteArray (toEncoded (url_ s))) query in
  let query := bindValue ":filetype" (QV_Int (int_of_FileType env (filetype_ s))) query in
  let query := bindValue ":filesize" (notnullintval (filesize_ s)) query in
  let query := bindValue ":mtime" (notnullintval (mtime_ s)) query in
  let query := bindValue ":ctime" (notnullintval (ctime_ s)) query in
  let query := bindValue ":unavailable" (of_bool (unavailable_ s)) query in
  let query := bindValue ":playcount" (QV_Int (playcount_ s)) query in
  let query := bindValue ":skipcount" (QV_Int (skipcount_ s)) query in
  let query := bindValue ":lastplayed" (QV_Int (intval (lastplayed_ s))) query in
  let query := bindValue ":compilation_detected" (of_bool (compilation_detected_ s)) query in
  let query := bindValue ":compilation_on" (of_bool (compilation_on_ s)) query in
  let query := bindValue ":compilation_off" (of_bool (compilation_off_ s)) query in
  let query := bindValue ":compilation_effective" (of_bool (is_compilation s)) query in
  let query := bindValue ":art_automatic" (QV_String (art_automatic_ s)) query in
  let query := bindValue ":art_manual" (QV_String (art_manual_ s)) query in
  let query := bindValue ":effective_albumartist" (QV_String (effective_albumartist s)) query in
  let query :=
    bindValue ":effective_originalyear" (QV_Int (intval (effective_originalyear s))) query in
  bindValue ":cue_path" (QV_String (cue_path_ s)) query.

(** The database between the two halves of the adapter: a statement built on
    [kBindSpec] stores the value bound to each column's placeholder, and a
    selection of [ROWID] and [kColumnSpec] returns the row id followed by
    the stored values in the order of [kColumns]. *)
Definition stored_row (rowid : Z) (query : QSqlQuery) : SqlRow :=
  {| columns_ := QV_Int rowid :: map (fun c => boundValue (":" ++ c) query) kColumns |}.

(** ** Comparisons *)

Definition IsMetadataEqual (s other : Song) : bool :=
  String.eqb (title_ s) (title_ other) &&
  String.eqb (album_ s) (album_ other) &&
  String.eqb (artist_ s) (artist_ other) &&
  String.eqb (albumartist_ s) (albumartist_ other) &&
  String.eqb (composer_ s) (composer_ other) &&
  String.eqb (performer_ s) (performer_ other) &&
  String.eqb (grouping_ s) (grouping_ other) &&
  (track_ s =? track_ other) &&
  (disc_ s =? disc_ other) &&
  (year_ s =? year_ other) &&
  (originalyear_ s =? originalyear_ other) &&
  String.eqb (genre_ s) (genre_ other) &&
  String.eqb (comment_ s) (comment_ other) &&
  Bool.eqb (compilation_ s) (compilation_ other) &&
  (beginning_ s =? beginning_ other) &&
  (length_nanosec s =? length_nanosec other) &&
  (bitrate_ s =? bitrate_ other) &&
  (samplerate_ s =? samplerate_ other) &&
  (bitdepth_ s =? bitdepth_ other) &&
  String.eqb (art_automatic_ s) (art_automatic_ other) &&
  String.eqb (art_manual_ s) (art_manual_ other) &&
  String.eqb (cue_path_ s) (cue_path_ other).

Definition IsOnSameAlbum (s other : Song) : bool :=
  if negb (Bool.eqb (is_compilation s) (is_compilation other)) then false
  else if has_cue s && has_cue other && String.eqb (cue_path s) (cue_path other) then true
  else if is_compilation s && String.eqb (album s) (album other) then true
  else String.eqb (effective_album s) (effective_album other) &&
       String.eqb (effective_albumartist s) (effective_albumartist other).

(** [QString("%1|%2|%3").arg(a, b, c)]: the three arguments are put in place
    in one pass. *)
Definition AlbumKey (s : Song) : QString :=
  ((if is_compilation s then "_compilation" else effective_albumartist s)
   ++ "|" ++ (if has_cue s then cue_path s else EmptyString)
   ++ "|" ++ effective_album s)%string.

Definition MergeUserSetData (other : Song) (s : Song) : Song :=
  let s := set_playcount (playcount other) s in
  let s := set_skipcount (skipcount other) s in
  let s := set_lastplayed (lastplayed other) s in
  set_art_manual (art_manual other) s.

(** ** Further members of [Song] *)

(** [Song::Init(title, artist, album, length_nanosec)] *)
Definition Init_length (title artist album : QString) (length_nanosec : Z) (s : Song) : Song :=
  let d := assign_valid_ true s in
  let d := assign_title_ title d in
  let d := assign_artist_ artist d in
  let d := assign_album_ album d in
  set_length_nanosec length_nanosec d.

(** [Song::Init(title, artist, album, beginning, end)] *)
Definition Init_beginning_end (title artist album : QString) (beginning end_nanosec : Z)
    (s : Song) : Song :=
  let d := assign_valid_ true s in
  let d := assign_title_ title d in
  let d := assign_artist_ artist d in
  let d := assign_album_ album d in
  let d := assign_beginning_ beginning d in
  assign_end_ end_nanosec d.

Definition IsFileLossless (s : Song) : bool :=
  match filetype s with
  | Type_Aiff | Type_Flac | Type_OggFlac | Type_Wav => true
  | _ => false
  end.

Definition FileType_eqb (a b : FileType) : bool :=
  match a, b with
  | Type_Unknown, Type_Unknown | Type_Asf, Type_Asf | Type_Flac, Type_Flac
  | Type_Mp4, Type_Mp4 | Type_Mpc, Type_Mpc | Type_Mpeg, Type_Mpeg
  | Type_OggFlac, Type_OggFlac | Type_OggSpeex, Type_OggSpeex
  | Type_OggVorbis, Type_OggVorbis | Type_OggOpus, Type_OggOpus
  | Type_Aiff, Type_Aiff | Type_Wav, Type_Wav | Type_TrueAudio, Type_TrueAudio
  | Type_Cdda, Type_Cdda => true
  | _, _ => false
  end.

(** [Song::IsEditable]; [QUrl::isEmpty] is read on the encoded form. *)
Definition IsEditable (s : Song) : bool :=
  valid_ s && negb (isEmpty (url_ s)) && negb (FileType_eqb (filetype_ s) Type_Unknown)
  && negb (has_cue s).

(** [Song::operator==] *)
Definition equal (s other : Song) : bool :=
  String.eqb (url s) (url other) && (beginning_nanosec s =? beginning_nanosec other).

Definition PrettyYear (s : Song) : QString :=
  if year_ s =? -1 then EmptyString else number (year_ s).

(** [QString("%1 hz").arg(n)] and [QString("%1 hz / %2 bit").arg(n).arg(m)]:
    a number holds no place marker, so each [arg] fills the marker meant
    for it. *)
Definition SampleRateBitDepthToText (s : Song) : QString :=
  if bitdepth_ s =? -1 then (number (samplerate_ s) ++ " hz")%string
  else (number (samplerate_ s) ++ " hz / " ++ number (bitdepth_ s) ++ " bit")%string.

(** [QString::toInt] and [QString::toLongLong]: 0 when the text is not a
    number of the type. *)
Definition QString_toInt (t : QString) : Z :=
  let z := parse_number t in if Z.eqb (wrap32 z) z then z else 0.
Definition QString_toLongLong (t : QString) : Z :=
  let z := parse_number t in if Z.eqb (wrap64 z) z then z else 0.

(** [Engine::SimpleMetaBundle] (engine/enginebase.h), by the members
    song.cpp reads; each is a [QString]. *)
Record SimpleMetaBundle : Type := mkSimpleMetaBundle {
  bundle_title : QString;
  bundle_artist : QString;
  bundle_album : QString;
  bundle_comment : QString;
  bundle_genre : QString;
  bundle_bitrate : QString;
  bundle_samplerate : QString;
  bundle_bitdepth : QString;
  bundle_length : QString;
  bundle_year : QString;
  bundle_tracknr : QString
}.

Section WithQUrl.

(** [QUrl::scheme] and [QUrl::toString], of Qt. *)
Variable scheme : QUrl -> QString.
Variable url_toString : QUrl -> QString.

(** [qHash(const QString &)] and [qHash(qint64)], of Qt; values of [uint]. *)
Variable qHash_QString : QString -> Z.
Variable qHash_qint64 : Z -> Z.

Definition MergeFromSimpleMetaBundle (bundle : SimpleMetaBundle) (s : Song) : Song :=
  if init_from_file_ s || String.eqb (scheme (url_ s)) "file" then s
  else
    let d := assign_valid_ true s in
    let d := if negb (isEmpty (bundle_title bundle))
             then assign_title_ (bundle_title bundle) d else d in
    let d := if negb (isEmpty (bundle_artist bundle))
             then assign_artist_ (bundle_artist bundle) d else d in
    let d := if negb (isEmpty (bundle_album bundle))
             then assign_album_ (bundle_album bundle) d else d in
    let d := if negb (isEmpty (bundle_comment bundle))
             then assign_comment_ (bundle_comment bundle) d else d in
    let d := if negb (isEmpty (bundle_genre bundle))
             then assign_genre_ (bundle_genre bundle) d else d in
    let d := if negb (isEmpty (bundle_bitrate bundle))
             then assign_bitrate_ (QString_toInt (bundle_bitrate bundle)) d else d in
    let d := if negb (isEmpty (bundle_samplerate bundle))
             then assign_samplerate_ (QString_toInt (bundle_samplerate bundle)) d else d in
    let d := if negb (isEmpty (bundle_bitdepth bundle))
             then assign_samplerate_ (QString_toInt (bundle_bitdepth bundle)) d else d in
    let d := if negb (isEmpty (bundle_length bundle))
             then set_length_nanosec (QString_toLongLong (bundle_length bundle)) d else d in
    let d := if negb (isEmpty (bundle_year bundle))
             then assign_year_ (QString_toInt (bundle_year bundle)) d else d in
    if negb (isEmpty (bundle_tracknr bundle))
    then assign_track_ (QString_toInt (bundle_tracknr bundle)) d else d.

Definition PrettyTitle (s : Song) : QString :=
  let title := title_ s in
  let title := if isEmpty title then basefilename_ s else title in
  if isEmpty title then url_toString (url_ s) else title.

Definition PrettyTitleWithArtist (s : Song) : QString :=
  let title := PrettyTitle s in
  if negb (isEmpty (artist_ s)) then (artist_ s ++ " - " ++ title)%string else title.

(** [uint qHash(const Song &)] *)
Definition qHash (song : Song) : Z :=
  Z.lxor (qHash_QString (url_toString (url song))) (qHash_qint64 (beginning_nanosec song)).

End WithQUrl.

(** The full-text adapter. *)
Definition kFtsColumns : list string :=
  [ "ftstitle"; "ftsalbum"; "ftsartist"; "ftsalbumartist"; "ftscomposer"; "ftsperformer";
    "ftsgrouping"; "ftsgenre"; "ftscomment" ].

Definition BindToFtsQuery (s : Song) (query : QSqlQuery) : QSqlQuery :=
  let query := bindValue ":ftstitle" (QV_String (title_ s)) query in
  let query := bindValue ":ftsalbum" (QV_String (album_ s)) query in
  let query := bindValue ":ftsartist" (QV_String (artist_ s)) query in
  let query := bindValue ":ftsalbumartist" (QV_String (albumartist_ s)) query in
  let query := bindValue ":ftscomposer" (QV_String (composer_ s)) query in
  let query := bindValue ":ftsperformer" (QV_String (performer_ s)) query in
  let query := bindValue ":ftsgrouping" (QV_String (grouping_ s)) query in
  let query := bindValue ":ftsgenre" (QV_String (genre_ s)) query in
  bindValue ":ftscomment" (QV_String (comment_ s)) query.

(** The names [InitFromQuery] reads nothing for: the derived columns. *)
Definition derived_column (name : string) : bool :=
  String.eqb name "compilation_effective" || String.eqb name "effective_albumartist"
  || String.eqb name "effective_originalyear".

(** ** The MTP adapter ([HAVE_LIBMTP]) *)

(** [LIBMTP_filetype_t], by the enumerators song.cpp names; any other
    enumerator of libmtp.h is [LIBMTP_FILETYPE_UNKNOWN] here. *)
Inductive LIBMTP_filetype_t : Type :=
| LIBMTP_FILETYPE_WAV
| LIBMTP_FILETYPE_MP3
| LIBMTP_FILETYPE_WMA
| LIBMTP_FILETYPE_OGG
| LIBMTP_FILETYPE_MP4
| LIBMTP_FILETYPE_AAC
| LIBMTP_FILETYPE_FLAC
| LIBMTP_FILETYPE_MP2
| LIBMTP_FILETYPE_M4A
| LIBMTP_FILETYPE_ASF
| LIBMTP_FILETYPE_UNDEF_AUDIO
| LIBMTP_FILETYPE_UNKNOWN.

(** [LIBMTP_track_t] (libmtp.h) without its [next] pointer.  A [char *] is
    [None] when null and otherwise the bytes before the terminator; the
    integers are those of the declared types: [uint16_t] for
    [tracknumber], [bitratetype], [nochannels] and [rating], [uint64_t] for
    [filesize], [time_t] for [modificationdate], [uint32_t] for the rest. *)
Record LIBMTP_track_t : Type := mkLIBMTP_track_t {
  item_id : Z;
  parent_id : Z;
  storage_id : Z;
  mtp_title : option string;
  mtp_artist : option string;
  mtp_composer : option string;
  mtp_genre : option string;
  mtp_album : option string;
  mtp_date : option string;
  mtp_filename : option string;
  tracknumber : Z;
  duration : Z;
  mtp_samplerate : Z;
  nochannels : Z;
  wavecodec : Z;
  mtp_bitrate : Z;
  bitratetype : Z;
  rating : Z;
  usecount : Z;
  mtp_filesize : Z;
  modificationdate : Z;
  mtp_filetype : LIBMTP_filetype_t
}.

(** [core/timeconstants.h] *)
Definition kNsecPerMsec : Z := 1000000.

(** [QString::fromUtf8] of a C string: the empty string for a null
    pointer. *)
Definition fromUtf8 (p : option string) : QString :=
  match p with
  | Some t => t
  | None => EmptyString
  end.

(** [strdup(t.toUtf8().constData())]: the bytes up to the first zero
    byte. *)
Fixpoint c_str (t : string) : string :=
  match t with
  | EmptyString => EmptyString
  | String c rest => if Ascii.eqb c Ascii.zero then EmptyString else String c (c_str rest)
  end.

Definition strdup (t : QString) : option string := Some (c_str t).

Section WithMtpUrl.

(** [QUrl(QString("mtp://%1/%2").arg(host, item_id))], of Qt. *)
Variable mtp_url : QString -> Z -> QUrl.

Definition InitFromMTP (track : LIBMTP_track_t) (host : QString) (s : Song) : Song :=
  let d := assign_valid_ true s in
  let d := assign_title_ (fromUtf8 (mtp_title track)) d in
  let d := assign_artist_ (fromUtf8 (mtp_artist track)) d in
  let d := assign_album_ (fromUtf8 (mtp_album track)) d in
  let d := assign_genre_ (fromUtf8 (mtp_genre track)) d in
  let d := assign_composer_ (fromUtf8 (mtp_composer track)) d in
  let d := assign_track_ (tracknumber track) d in
  let d := assign_url_ (mtp_url host (item_id track)) d in
  let d := assign_basefilename_ (number (item_id track)) d in
  let d := assign_filesize_ (wrap32 (mtp_filesize track)) d in
  let d := assign_mtime_ (wrap32 (modificationdate track)) d in
  let d := assign_ctime_ (wrap32 (modificationdate track)) d in
  let d := set_length_nanosec (duration track * kNsecPerMsec) d in
  let d := assign_samplerate_ (wrap32 (mtp_samplerate track)) d in
  let d := assign_bitdepth_ 0 d in
  let d := assign_bitrate_ (wrap32 (mtp_bitrate track)) d in
  let d := assign_playcount_ (wrap32 (usecount track)) d in
  match mtp_filetype track with
  | LIBMTP_FILETYPE_WAV => assign_filetype_ Type_Wav d
  | LIBMTP_FILETYPE_MP3 => assign_filetype_ Type_Mpeg d
  | LIBMTP_FILETYPE_WMA => assign_filetype_ Type_Asf d
  | LIBMTP_FILETYPE_OGG => assign_filetype_ Type_OggVorbis d
  | LIBMTP_FILETYPE_MP4 => assign_filetype_ Type_Mp4 d
  | LIBMTP_FILETYPE_AAC => assign_filetype_ Type_Mp4 d
  | LIBMTP_FILETYPE_FLAC => assign_filetype_ Type_OggFlac d
  | LIBMTP_FILETYPE_MP2 => assign_filetype_ Type_Mpeg d
  | LIBMTP_FILETYPE_M4A => assign_filetype_ Type_Mp4 d
  | _ => assign_filetype_ Type_Unknown d
  end.

End WithMtpUrl.

(** [Song::ToMTP]; [rating] is the one modelled member it leaves as it
    finds it. *)
Definition ToMTP (s : Song) (track : LIBMTP_track_t) : LIBMTP_track_t :=
  {| item_id := 0;
     parent_id := 0;
     storage_id := 0;
     mtp_title := strdup (title_ s);
     mtp_artist := strdup (artist_ s);
     mtp_composer := strdup (composer_ s);
     mtp_genre := strdup (genre_ s);
     mtp_album := strdup (album_ s);
     mtp_date := None;
     mtp_filename := strdup (basefilename_ s);
     tracknumber := track_ s mod 2 ^ 16;
     duration := Z.quot (length_nanosec s) kNsecPerMsec mod 2 ^ 32;
     mtp_samplerate := samplerate_ s mod 2 ^ 32;
     nochannels := 0;
     wavecodec := 0;
     mtp_bitrate := bitrate_ s mod 2 ^ 32;
     bitratetype := 0;
     rating := rating track;
     usecount := playcount_ s mod 2 ^ 32;
     mtp_filesize := filesize_ s mod 2 ^ 64;
     modificationdate := mtime_ s;
     mtp_filetype :=
       match filetype_ s with
       | Type_Asf => LIBMTP_FILETYPE_ASF
       | Type_Mp4 => LIBMTP_FILETYPE_MP4
       | Type_Mpeg => LIBMTP_FILETYPE_MP3
       | Type_Flac | Type_OggFlac => LIBMTP_FILETYPE_FLAC
       | Type_OggSpeex | Type_OggVorbis => LIBMTP_FILETYPE_OGG
       | Type_Wav => LIBMTP_FILETYPE_WAV
       | _ => LIBMTP_FILETYPE_UNDEF_AUDIO
       end |}.

Definition in_int32 (z : Z) : Prop := - 2 ^ 31 <= z < 2 ^ 31.

(** ** Descriptions used in the statements

    The value bound to [:filename], the list of bindings [BindToQuery]
    makes, in order, and the cover [InitArtManual] leaves in
    [art_manual_]. *)

Definition stored_filename (env : Env) (s : Song) : QVariant :=
  if kIsPortable env && UrlOnSameDriveAsStrawberry env (url_ s)
  then QV_ByteArray (toEncoded (GetRelativePathToStrawberryBin env (url_ s)))
  else QV_ByteArray (toEncoded (url_ s)).

Definition bindings (env : Env) (s : Song) : list (string * QVariant) :=
  [ (":title", strval (title_ s));
    (":album", strval (album_ s));
    (":artist", strval (artist_ s));
    (":albumartist", strval (albumartist_ s));
    (":track", QV_Int (intval (track_ s)));
    (":disc", QV_Int (intval (disc_ s)));
    (":year", QV_Int (intval (year_ s)));
    (":originalyear", QV_Int (intval (originalyear_ s)));
    (":genre", strval (genre_ s));
    (":compilation", of_bool (compilation_ s));
    (":composer", strval (composer_ s));
    (":performer", strval (performer_ s));
    (":grouping", strval (grouping_ s));
    (":comment", strval (comment_ s));
    (":beginning", QV_LongLong (beginning_ s));
    (":length", QV_LongLong (intval (length_nanosec s)));
    (":bitrate", QV_Int (intval (bitrate_ s)));
    (":samplerate", QV_Int (intval (samplerate_ s)));
    (":bitdepth", QV_Int (intval (bitdepth_ s)));
    (":directory_id", notnullintval (directory_id_ s));
    (":filename", stored_filename env s);
    (":filetype", QV_Int (int_of_FileType env (filetype_ s)));
    (":filesize", notnullintval (filesize_ s));
    (":mtime", notnullintval (mtime_ s));
    (":ctime", notnullintval (ctime_ s));
    (":unavailable", of_bool (unavailable_ s));
    (":playcount", QV_Int (playcount_ s));
    (":skipcount", QV_Int (skipcount_ s));
    (":lastplayed", QV_Int (intval (lastplayed_ s)));
    (":compilation_detected", of_bool (compilation_detected_ s));
    (":compilation_on", of_bool (compilation_on_ s));
    (":compilation_off", of_bool (compilation_off_ s));
    (":compilation_effective", of_bool (is_compilation s));
    (":art_automatic", QV_String (art_automatic_ s));
    (":art_manual", QV_String (art_manual_ s));
    (":effective_albumartist", QV_String (effective_albumartist s));
    (":effective_originalyear", QV_Int (intval (effective_originalyear s)));
    (":cue_path", QV_String (cue_path_ s)) ].

Definition bind_all (l : list (string * QVariant)) (query : QSqlQuery) : QSqlQuery :=
  fold_left (fun q pv => bindValue (fst pv) (snd pv) q) l query.

Fixpoint last_bound (p : string) (l : list (string * QVariant)) (otherwise : QVariant)
  : QVariant :=
  match l with
  | [] => otherwise
  | (k, v) :: later => last_bound p later (if String.eqb k p then v else otherwise)
  end.

(** The text columns, which the full-text row repeats. *)
Definition searchable : list string :=
  [ "title"; "album"; "artist"; "albumartist"; "composer"; "performer"; "grouping";
    "genre"; "comment" ].

(** [if (c) d = f(d);] as a step from one payload to the next. *)
Definition when (c : bool) (f : Private -> Private) (d : Private) : Private :=
  if c then f d else d.

Definition adopted_cover (env : Env) (artist album art_automatic art_manual : QString)
  : QString :=
  if isEmpty art_manual && isEmpty art_automatic
  then if file_exists env (cover_cache_path env artist album)
       then cover_cache_path env artist album
       else art_manual
  else art_manual.

End Song.

(** * Sample environments and records *)

Module Samples.

Import Song.

(** A numbering of [FileType], in the order of its enumerators. *)
Definition sample_int_of_FileType (t : FileType) : Z :=
  match t with
  | Type_Unknown => 0
  | Type_Asf => 1
  | Type_Flac => 2
  | Type_Mp4 => 3
  | Type_Mpc => 4
  | Type_Mpeg => 5
  | Type_OggFlac => 6
  | Type_OggSpeex => 7
  | Type_OggVorbis => 8
  | Type_OggOpus => 9
  | Type_Aiff => 10
  | Type_Wav => 11
  | Type_TrueAudio => 12
  | Type_Cdda => 13
  end.

Definition sample_FileType_of_int (n : Z) : FileType :=
  match n with
  | 1 => Type_Asf
  | 2 => Type_Flac
  | 3 => Type_Mp4
  | 4 => Type_Mpc
  | 5 => Type_Mpeg
  | 6 => Type_OggFlac
  | 7 => Type_OggSpeex
  | 8 => Type_OggVorbis
  | 9 => Type_OggOpus
  | 10 => Type_Aiff
  | 11 => Type_Wav
  | 12 => Type_TrueAudio
  | 13 => Type_Cdda
  | _ => Type_Unknown
  end.

(** An installation that is not portable; [cover_cached] says whether the
    cover cache holds a file for every (artist, album). *)
Definition installed (cover_cached : bool) : Env :=
  {| kIsPortable := false;
     resolved_against_application_dir := fun u => u;
     UrlOnSameDriveAsStrawberry := fun _ => true;
     GetRelativePathToStrawberryBin := fun u => u;
     local_file_name := fun u => u;
     cover_cache_path := fun artist album => "/cache/" ++ artist ++ "-" ++ album ++ ".jpg";
     file_exists := fun _ => cover_cached;
     FileType_of_int := sample_FileType_of_int;
     int_of_FileType := sample_int_of_FileType |}.

(** A default-constructed record in zeroed storage. *)
Definition fresh : Song := Song_ctor 0.

(** A track flagged as part of a compilation and an ordinary track whose
    album and album artist read the same. *)
Definition compilation_track : Song :=
  set_compilation true (set_albumartist "Various" (set_album "Hits" (set_title "One" fresh))).
Definition plain_track : Song :=
  set_albumartist "Various" (set_album "Hits" (set_title "Two" fresh)).

(** Two singles of one title by different artists. *)
Definition single_a : Song := set_artist "A" (set_title "T" fresh).
Definition single_b : Song := set_artist "B" (set_title "T" fresh).

(** Two tracks of one CUE sheet, without album tag. *)
Definition cue_track_one : Song := set_cue_path "disc.cue" (set_title "One" fresh).
Definition cue_track_two : Song := set_cue_path "disc.cue" (set_title "Two" fresh).

(** A record whose track number is zero. *)
Definition track_zero : Song := set_track 0 (set_title "Intro" fresh).

(** A second track of the single [single_a]. *)
Definition single_a_again : Song := set_track 2 single_a.

(** A result row that ends after the row id and the first ten columns of
    [kColumns]. *)
Definition truncated_row : SqlRow :=
  {| columns_ :=
       [ QV_Int 7; QV_String "Title"; QV_String "Album"; QV_String "Artist";
         QV_String EmptyString; QV_Int 3; QV_Int 1; QV_Int 1999; QV_Invalid;
         QV_String "Rock"; QV_Int 0 ] |}.

(** A single of the title of [cue_track_two], outside any CUE sheet. *)
Definition single_two : Song := set_title "Two" fresh.

(** A track with tags and audio properties, as a scan leaves it. *)
Definition tagged_track : Song :=
  set_length_nanosec 250000
    (set_bitdepth 16
       (set_samplerate 44100
          (set_bitrate 320
             (set_year 1999
                (set_disc 1
                   (set_track 3
                      (set_artist "Artist" (set_album "Album" (set_title "Song" fresh))))))))).

(** The row [BindToQuery] stores for [tagged_track], and the same row with
    other values in its three derived columns. *)
Definition full_row : SqlRow := stored_row 1 (BindToQuery (installed false) tagged_track []).

Definition full_row_rederived : SqlRow :=
  {| columns_ :=
       (firstn 33 (columns_ full_row) ++ [QV_Int 1]
        ++ firstn 2 (skipn 34 (columns_ full_row))
        ++ [QV_String "Someone"; QV_Int 1900]
        ++ skipn 38 (columns_ full_row))%list |}.

(** A stream, and what the engine reports while it plays. *)
Definition stream_track : Song := set_url (installed false) "http://radio.example/live" fresh.

Definition stream_bundle : SimpleMetaBundle :=
  {| bundle_title := "Live";
     bundle_artist := EmptyString;
     bundle_album := EmptyString;
     bundle_comment := EmptyString;
     bundle_genre := EmptyString;
     bundle_bitrate := "128";
     bundle_samplerate := "44100";
     bundle_bitdepth := "24";
     bundle_length := EmptyString;
     bundle_year := EmptyString;
     bundle_tracknr := EmptyString |}.

(** A reading of [QUrl::scheme] good for the two locators above, and hash
    functions to run [qHash] with. *)
Definition sample_scheme (u : QUrl) : QString :=
  if String.prefix "file:" u then "file"
  else if String.prefix "http:" u then "http"
  else EmptyString.

Definition sample_qHash_QString (t : QString) : Z := Z.of_nat (String.length t).
Definition sample_qHash_qint64 (n : Z) : Z := n mod 2 ^ 32.

(** A message of the tag reader, without play count and cover. *)
Definition sample_message : SongMetadata :=
  {| pb_valid := true;
     pb_title := "Song";
     pb_album := "Album";
     pb_artist := "Artist";
     pb_albumartist := EmptyString;
     pb_composer := EmptyString;
     pb_performer := EmptyString;
     pb_grouping := EmptyString;
     pb_track := 3;
     pb_disc := 1;
     pb_year := 1999;
     pb_originalyear := -1;
     pb_genre := "Rock";
     pb_comment := EmptyString;
     pb_compilation := false;
     pb_playcount_opt := None;
     pb_skipcount := 0;
     pb_lastplayed := -1;
     pb_length_nanosec := 250000;
     pb_bitrate := 320;
     pb_samplerate := 44100;
     pb_bitdepth := 16;
     pb_url := "file:///music/song.flac";
     pb_basefilename := "song.flac";
     pb_mtime := 1500000000;
     pb_ctime := 1500000000;
     pb_filesize := 4096;
     pb_suspicious_tags := false;
     pb_art_automatic_opt := None;
     pb_filetype := 2 |}.

(** A track as an MTP device lists it before anything is written to it. *)
Definition blank_mtp_track : LIBMTP_track_t :=
  {| item_id := 0; parent_id := 0; storage_id := 0;
     mtp_title := None; mtp_artist := None; mtp_composer := None; mtp_genre := None;
     mtp_album := None; mtp_date := None; mtp_filename := None;
     tracknumber := 0; duration := 0; mtp_samplerate := 0; nochannels := 0; wavecodec := 0;
     mtp_bitrate := 0; bitratetype := 0; rating := 0; usecount := 0; mtp_filesize := 0;
     modificationdate := 0; mtp_filetype := LIBMTP_FILETYPE_UNKNOWN |}.

Definition sample_mtp_url (host : QString) (item : Z) : QUrl :=
  ("mtp://" ++ host ++ "/" ++ number item)%string.

End Samples.

(** * The grouping rule in the words of the specification *)

Module Specified.

Import Song.

(** Same-album grouping as the specification words it: (a) both or neither
    is a compilation and both have the identical non-empty CUE path, or
    (b) both are compilations with identical album, or (c) effective album
    and effective album artist both match. *)
Definition same_album (a b : Song) : Prop :=
  (is_compilation a = is_compilation b
   /\ cue_path a <> EmptyString /\ cue_path a = cue_path b)
  \/ (is_compilation a = true /\ is_compilation b = true /\ album a = album b)
  \/ (effective_album a = effective_album b
      /\ effective_albumartist a = effective_albumartist b).

End Specified.

(** * Properties *)

Module SongProperties.

Import Song.

(** ** Arithmetic of [qint64] *)

Lemma wrap64_in_range (z : Z) : in_int64 z -> wrap64 z = z.
Proof.
  unfold in_int64, wrap64, wrap. intros Hz.
  change (64 - 1) with 63.
  rewrite Z.mod_small; lia.
Qed.

Lemma wrap64_sub_l (a b : Z) : wrap64 (wrap64 a - b) = wrap64 (a - b).
Proof.
  unfold wrap64, wrap. change (64 - 1) with 63.
  f_equal.
  replace ((a + 2 ^ 63) mod 2 ^ 64 - 2 ^ 63 - b + 2 ^ 63)
    with ((a + 2 ^ 63) mod 2 ^ 64 - b) by ring.
  rewrite Zminus_mod_idemp_l. f_equal. ring.
Qed.

Lemma wrap64_idem (z : Z) : wrap64 (wrap64 z) = wrap64 z.
Proof.
  replace (wrap64 z) with (wrap64 z - 0) at 1 by ring.
  rewrite wrap64_sub_l. f_equal. ring.
Qed.

(** ** Derived values *)

(** C3. [is_compilation] is [(compilation || compilation_detected ||
    compilation_on) && !compilation_off]: on any record, and for each of the
    sixteen settings of the four flags through their setters. *)
Theorem is_compilation_truth_table :
  (forall s : Song,
      is_compilation s
      = (compilation_ s || compilation_detected_ s || compilation_on_ s)
        && negb (compilation_off_ s))
  /\ (forall (s : Song) (c d on off : bool),
         is_compilation
           (set_compilation_off off
              (set_compilation_on on (set_compilation_detected d (set_compilation c s))))
         = (c || d || on) && negb off).
Proof.
  split.
  - intros s. reflexivity.
  - intros s c d on off. destruct c, d, on, off; reflexivity.
Qed.

(** ** Timing *)

(** C7. After [set_length_nanosec(L)], [length_nanosec()] is [L] whatever
    [beginning_] held, and [beginning_nanosec()] is what it was. *)
Theorem set_length_nanosec_then_length_nanosec (s : Song) (L : Z) :
  in_int64 L ->
  length_nanosec (set_length_nanosec L s) = L
  /\ beginning_nanosec (set_length_nanosec L s) = beginning_nanosec s.
Proof.
  intros HL. split.
  - unfold length_nanosec, set_length_nanosec. cbn.
    rewrite wrap64_sub_l.
    replace (beginning_ s + L - beginning_ s) with L by ring.
    now apply wrap64_in_range.
  - reflexivity.
Qed.

Lemma set_length_nanosec_then_length_nanosec_witness :
  let s := set_beginning_nanosec 7000 (Song_ctor 16) in
  in_int64 250000
  /\ length_nanosec (set_length_nanosec 250000 s) = 250000
  /\ beginning_nanosec (set_length_nanosec 250000 s) = beginning_nanosec s.
Proof.
  assert (H : in_int64 250000) by (unfold in_int64; lia).
  split; [exact H|].
  exact (set_length_nanosec_then_length_nanosec
           (set_beginning_nanosec 7000 (Song_ctor 16)) 250000 H).
Defined.

(** ** Construction *)

(** C9. A default-constructed [Song] is invalid and holds the sentinel in
    every member the initialiser list names; [bitdepth_] is not among them
    and is whatever the storage held. *)
Theorem default_constructed_song (indeterminate : Z) :
  let s := Song_ctor indeterminate in
  is_valid s = false
  /\ (id s = -1 /\ album_id s = -1 /\ track s = -1 /\ disc s = -1 /\ year s = -1
      /\ originalyear s = -1 /\ bitrate s = -1 /\ samplerate s = -1 /\ filesize s = -1
      /\ mtime_ s = -1 /\ ctime_ s = -1 /\ lastplayed s = -1 /\ directory_id s = -1
      /\ end_nanosec s = -1)
  /\ (beginning_nanosec s = 0 /\ playcount s = 0 /\ skipcount s = 0)
  /\ (title s = EmptyString /\ album s = EmptyString /\ artist s = EmptyString
      /\ albumartist s = EmptyString /\ genre s = EmptyString /\ composer s = EmptyString
      /\ performer s = EmptyString /\ grouping s = EmptyString /\ comment s = EmptyString
      /\ basefilename s = EmptyString /\ url s = EmptyString
      /\ art_automatic s = EmptyString /\ art_manual s = EmptyString
      /\ cue_path s = EmptyString)
  /\ (compilation_ s = false /\ unavailable_ s = false /\ compilation_detected_ s = false
      /\ compilation_on_ s = false /\ compilation_off_ s = false
      /\ init_from_file_ s = false /\ suspicious_tags_ s = false)
  /\ filetype s = Type_Unknown
  /\ bitdepth s = indeterminate.
Proof.
  cbv zeta. repeat split.
Qed.

(** ** User-set data *)

(** C10. [a.MergeUserSetData(b)] is [a] with [playcount_], [skipcount_],
    [lastplayed_] and [art_manual_] taken from [b]; every other member of
    [a] is as before. *)
Theorem MergeUserSetData_frame (s other : Song) :
  MergeUserSetData other s =
    {| valid_ := valid_ s;
       id_ := id_ s;
       album_id_ := album_id_ s;
       title_ := title_ s;
       album_ := album_ s;
       artist_ := artist_ s;
       albumartist_ := albumartist_ s;
       track_ := track_ s;
       disc_ := disc_ s;
       year_ := year_ s;
       originalyear_ := originalyear_ s;
       genre_ := genre_ s;
       compilation_ := compilation_ s;
       composer_ := composer_ s;
       performer_ := performer_ s;
       grouping_ := grouping_ s;
       comment_ := comment_ s;
       beginning_ := beginning_ s;
       end_ := end_ s;
       bitrate_ := bitrate_ s;
       samplerate_ := samplerate_ s;
       bitdepth_ := bitdepth_ s;
       directory_id_ := directory_id_ s;
       basefilename_ := basefilename_ s;
       url_ := url_ s;
       filetype_ := filetype_ s;
       filesize_ := filesize_ s;
       mtime_ := mtime_ s;
       ctime_ := ctime_ s;
       unavailable_ := unavailable_ s;
       playcount_ := playcount_ other;
       skipcount_ := skipcount_ other;
       lastplayed_ := lastplayed_ other;
       compilation_detected_ := compilation_detected_ s;
       compilation_on_ := compilation_on_ s;
       compilation_off_ := compilation_off_ s;
       art_automatic_ := art_automatic_ s;
       art_manual_ := art_manual_ other;
       cue_path_ := cue_path_ s;
       image_ := image_ s;
       init_from_file_ := init_from_file_ s;
       suspicious_tags_ := suspicious_tags_ s |}.
Proof.
  reflexivity.
Qed.

(** ** Same-album grouping *)

Lemma has_cue_true (s : Song) : has_cue s = true <-> cue_path s <> EmptyString.
Proof.
  unfold has_cue, isEmpty, cue_path. rewrite negb_true_iff. apply String.eqb_neq.
Qed.

Lemma has_cue_false (s : Song) : has_cue s = false <-> cue_path s = EmptyString.
Proof.
  unfold has_cue, isEmpty, cue_path. rewrite negb_false_iff. apply String.eqb_eq.
Qed.

(** What [IsOnSameAlbum] computes: the compilation states agree, and one of
    the three tests that follow the first [return] succeeds. *)
Lemma IsOnSameAlbum_true (a b : Song) :
  IsOnSameAlbum a b = true <->
  is_compilation a = is_compilation b
  /\ ((cue_path a <> EmptyString /\ cue_path a = cue_path b)
      \/ (is_compilation a = true /\ album a = album b)
      \/ (effective_album a = effective_album b
          /\ effective_albumartist a = effective_albumartist b)).
Proof.
  unfold IsOnSameAlbum.
  destruct (Bool.eqb (is_compilation a) (is_compilation b)) eqn:Hc; cbn [negb].
  2:{ apply eqb_false_iff in Hc. split; [discriminate | tauto]. }
  apply eqb_prop in Hc.
  destruct (has_cue a && has_cue b && String.eqb (cue_path a) (cue_path b)) eqn:Hcue.
  { apply andb_true_iff in Hcue as [Hcue Heq]. apply andb_true_iff in Hcue as [Ha _].
    apply has_cue_true in Ha. apply String.eqb_eq in Heq. tauto. }
  assert (Hno : ~ (cue_path a <> EmptyString /\ cue_path a = cue_path b)).
  { intros [Hne Heq].
    assert (Ha : has_cue a = true) by now apply has_cue_true.
    assert (Hb : has_cue b = true) by (apply has_cue_true; congruence).
    apply String.eqb_eq in Heq. rewrite Ha, Hb, Heq in Hcue. discriminate. }
  destruct (is_compilation a && String.eqb (album a) (album b)) eqn:Halb.
  { apply andb_true_iff in Halb as [Hca Heq]. apply String.eqb_eq in Heq. tauto. }
  assert (Hnb : ~ (is_compilation a = true /\ album a = album b)).
  { intros [Hca Heq]. apply String.eqb_eq in Heq. rewrite Hca, Heq in Halb. discriminate. }
  rewrite andb_true_iff, !String.eqb_eq. tauto.
Qed.

(** C4, as amended.  [IsOnSameAlbum] holds exactly when both or neither
    record is a compilation and, in addition, (a) both have the identical
    non-empty CUE path, or (b) both are compilations with identical album,
    or (c) effective album and effective album artist both match. *)
Theorem IsOnSameAlbum_iff (a b : Song) :
  IsOnSameAlbum a b = true <->
  (is_compilation a = is_compilation b
   /\ cue_path a <> EmptyString /\ cue_path a = cue_path b)
  \/ (is_compilation a = true /\ is_compilation b = true /\ album a = album b)
  \/ (is_compilation a = is_compilation b
      /\ effective_album a = effective_album b
      /\ effective_albumartist a = effective_albumartist b).
Proof.
  rewrite IsOnSameAlbum_true. split.
  - intros [Hc [H | [[Hca H] | H]]].
    + left. tauto.
    + right. left. repeat split; congruence.
    + right. right. tauto.
  - intros [[Hc H] | [[Hca [Hcb H]] | [Hc H]]].
    + tauto.
    + split; [congruence | tauto].
    + tauto.
Qed.

(** C4 fails as worded: clause (c) holds of a compilation track and an
    ordinary track with the same album and album artist, and
    [IsOnSameAlbum] returns false for them. *)
Lemma IsOnSameAlbum_not_as_specified :
  Specified.same_album Samples.compilation_track Samples.plain_track
  /\ IsOnSameAlbum Samples.compilation_track Samples.plain_track = false.
Proof.
  split.
  - right. right. split; reflexivity.
  - reflexivity.
Qed.

(** C5, as amended.  Two records with empty album and album artist, the
    same title and the same artist, neither a compilation, are on the same
    album. *)
Theorem IsOnSameAlbum_singles (a b : Song) :
  album a = EmptyString -> albumartist a = EmptyString ->
  album b = EmptyString -> albumartist b = EmptyString ->
  title a = title b ->
  artist a = artist b ->
  is_compilation a = false -> is_compilation b = false ->
  IsOnSameAlbum a b = true
  /\ effective_album a = title a /\ effective_album b = title b.
Proof.
  intros Haa Hara Hab Harb Ht Har Hca Hcb.
  assert (Ea : effective_album a = title a).
  { unfold effective_album, album, title in *. now rewrite Haa. }
  assert (Eb : effective_album b = title b).
  { unfold effective_album, album, title in *. now rewrite Hab. }
  assert (Fa : effective_albumartist a = artist a).
  { unfold effective_albumartist, albumartist, artist in *. now rewrite Hara. }
  assert (Fb : effective_albumartist b = artist b).
  { unfold effective_albumartist, albumartist, artist in *. now rewrite Harb. }
  split; [|split; assumption].
  apply IsOnSameAlbum_true. split; [congruence|].
  right. right. split; congruence.
Qed.

Lemma IsOnSameAlbum_singles_witness :
  title Samples.single_a = title Samples.single_a_again
  /\ artist Samples.single_a = artist Samples.single_a_again
  /\ IsOnSameAlbum Samples.single_a Samples.single_a_again = true
  /\ effective_album Samples.single_a = title Samples.single_a
  /\ effective_album Samples.single_a_again = title Samples.single_a_again.
Proof.
  split; [reflexivity|]. split; [reflexivity|].
  apply (IsOnSameAlbum_singles Samples.single_a Samples.single_a_again); reflexivity.
Defined.

(** C5 fails as worded: two singles of one title by different artists,
    with no album and no album artist, are not grouped. *)
Lemma IsOnSameAlbum_singles_by_title_only :
  album Samples.single_a = EmptyString /\ albumartist Samples.single_a = EmptyString
  /\ album Samples.single_b = EmptyString /\ albumartist Samples.single_b = EmptyString
  /\ title Samples.single_a = title Samples.single_b
  /\ is_compilation Samples.single_a = false /\ is_compilation Samples.single_b = false
  /\ IsOnSameAlbum Samples.single_a Samples.single_b = false.
Proof.
  repeat split.
Qed.

(** C6, as amended.  Of two records without CUE sheet that
    [IsOnSameAlbum] groups, [AlbumKey] is the same string, compilations
    with an empty album set aside. *)
Theorem AlbumKey_stable (a b : Song) :
  has_cue a = false -> has_cue b = false ->
  is_compilation a = false \/ album a <> EmptyString ->
  IsOnSameAlbum a b = true ->
  AlbumKey a = AlbumKey b.
Proof.
  intros Ha Hb Hne Hs.
  apply IsOnSameAlbum_true in Hs as [Hc Hs].
  unfold AlbumKey. rewrite Ha, Hb, <- Hc.
  destruct Hs as [[Hcue _] | [[Hca Halb] | [He Hea]]].
  - apply has_cue_false in Ha. contradiction.
  - rewrite Hca.
    destruct Hne as [Hn | Hn]; [congruence|].
    assert (E : effective_album a = effective_album b).
    { unfold effective_album, album, isEmpty in *. rewrite <- Halb.
      apply String.eqb_neq in Hn. now rewrite Hn. }
    now rewrite E.
  - now rewrite He, Hea.
Qed.

Lemma AlbumKey_stable_witness :
  IsOnSameAlbum Samples.single_a Samples.single_a_again = true
  /\ AlbumKey Samples.single_a = AlbumKey Samples.single_a_again.
Proof.
  split; [reflexivity|].
  apply (AlbumKey_stable Samples.single_a Samples.single_a_again).
  - reflexivity.
  - reflexivity.
  - left. reflexivity.
  - reflexivity.
Defined.

(** C6 fails as worded: two tracks of one CUE sheet are grouped by
    [IsOnSameAlbum], and their keys differ in the effective album. *)
Lemma AlbumKey_differs_within_cue_sheet :
  IsOnSameAlbum Samples.cue_track_one Samples.cue_track_two = true
  /\ AlbumKey Samples.cue_track_one = "|disc.cue|One"
  /\ AlbumKey Samples.cue_track_two = "|disc.cue|Two"
  /\ AlbumKey Samples.cue_track_one <> AlbumKey Samples.cue_track_two.
Proof.
  repeat split. discriminate.
Qed.

(** ** The adapters *)

Lemma boundValue_bindValue (p p' : string) (v : QVariant) (query : QSqlQuery) :
  boundValue p (bindValue p' v query) = if String.eqb p' p then v else boundValue p query.
Proof.
  induction query as [|[k w] later IH]; cbn.
  - destruct (String.eqb p' p); reflexivity.
  - destruct (String.eqb k p') eqn:E; cbn.
    + apply String.eqb_eq in E. subst k. destruct (String.eqb p' p); reflexivity.
    + destruct (String.eqb k p) eqn:F.
      * apply String.eqb_eq in F. subst k. rewrite String.eqb_sym in E. rewrite E. reflexivity.
      * exact IH.
Qed.

Lemma boundValue_bind_all (p : string) (l : list (string * QVariant)) :
  forall query : QSqlQuery,
    boundValue p (bind_all l query) = last_bound p l (boundValue p query).
Proof.
  induction l as [|[k v] later IH]; intros query; cbn.
  - reflexivity.
  - unfold bind_all in IH. rewrite IH, boundValue_bindValue. reflexivity.
Qed.

Lemma BindToQuery_bind_all (env : Env) (s : Song) (query : QSqlQuery) :
  BindToQuery env s query = bind_all (bindings env s) query.
Proof.
  unfold BindToQuery, bind_all, bindings, stored_filename. cbv zeta.
  destruct (kIsPortable env && UrlOnSameDriveAsStrawberry env (url_ s)); reflexivity.
Qed.

Lemma stored_row_BindToQuery (env : Env) (s : Song) (query : QSqlQuery) (rowid : Z) :
  stored_row rowid (BindToQuery env s query)
  = {| columns_ := QV_Int rowid :: map snd (bindings env s) |}.
Proof.
  unfold stored_row. rewrite BindToQuery_bind_all. do 2 f_equal.
  erewrite map_ext by (intros c; apply boundValue_bind_all).
  cbv [kColumns map bindings last_bound String.eqb Ascii.eqb Bool.eqb append snd].
  reflexivity.
Qed.

Lemma InitArtManual_art_manual (env : Env) (d : Song) :
  art_manual_ (InitArtManual env d)
  = adopted_cover env (artist_ d) (album_ d) (art_automatic_ d) (art_manual_ d).
Proof.
  unfold InitArtManual, adopted_cover.
  destruct (isEmpty (art_manual_ d) && isEmpty (art_automatic_ d)); [|reflexivity].
  destruct (file_exists env _); reflexivity.
Qed.

(** [InitArtManual] writes [art_manual_] and nothing else. *)
Lemma InitArtManual_assigns (env : Env) (d : Song) :
  InitArtManual env d
  = assign_art_manual_
      (adopted_cover env (artist_ d) (album_ d) (art_automatic_ d) (art_manual_ d)) d.
Proof.
  unfold InitArtManual, adopted_cover. destruct d. cbv [art_manual_ art_automatic_ artist_ album_].
  destruct (isEmpty _ && isEmpty _); [|reflexivity].
  destruct (file_exists env _); reflexivity.
Qed.

Lemma intval_spec (x : Z) : (0 < x -> intval x = x) /\ (x <= 0 -> intval x = -1).
Proof.
  unfold intval. destruct (x <=? 0) eqn:E.
  - apply Z.leb_le in E. split; [lia | reflexivity].
  - apply Z.leb_gt in E. split; [reflexivity | lia].
Qed.

Lemma read_notnullintval (x : Z) :
  (if isNull (notnullintval x) then -1 else toInt (notnullintval x)) = x.
Proof.
  unfold notnullintval. destruct (x =? -1) eqn:E; cbn.
  - apply Z.eqb_eq in E. congruence.
  - reflexivity.
Qed.

Lemma InitFromQuery_fst (env : Env) (q : SqlRow) (reliable : bool) (col : Z) (s0 : Song) :
  fst (InitFromQuery env q reliable col s0)
  = InitArtManual env
      (assign_init_from_file_ reliable
         (assign_valid_ true
            (fst (InitFromQuery_loop env q kColumns col (assign_id_ (toint q col) s0, []))))).
Proof. reflexivity. Qed.

Lemma InitFromQuery_snd (env : Env) (q : SqlRow) (reliable : bool) (col : Z) (s0 : Song) :
  snd (InitFromQuery env q reliable col s0)
  = snd (InitFromQuery_loop env q kColumns col (assign_id_ (toint q col) s0, [])).
Proof. reflexivity. Qed.

(** Evaluation that leaves the arithmetic on unknown integers and the
    collaborators alone. *)
Ltac evaluate :=
  lazy -[intval notnullintval wrap64 Z.add Z.sub stored_filename number parse_number wrap32
         effective_originalyear effective_albumartist is_compilation adopted_cover
         tostr toint tolonglong value toBool].

Ltac by_cases_on_env env :=
  destruct env as [[|] ? ? ? ? ? ? ? ?]; evaluate; reflexivity.

(** The members [InitFromQuery] reads from a row that [BindToQuery]
    stored. *)
Lemma InitFromQuery_of_stored_row (env : Env) (s s0 : Song) (query : QSqlQuery)
    (rowid : Z) (reliable : bool) :
  let r := fst (InitFromQuery env (stored_row rowid (BindToQuery env s query)) reliable 0 s0) in
  (track_ r = intval (track_ s) /\ disc_ r = intval (disc_ s) /\ year_ r = intval (year_ s)
   /\ originalyear_ r = intval (originalyear_ s) /\ bitrate_ r = intval (bitrate_ s)
   /\ samplerate_ r = intval (samplerate_ s) /\ bitdepth_ r = intval (bitdepth_ s)
   /\ lastplayed_ r = intval (lastplayed_ s))
  /\ (directory_id_ r = directory_id_ s /\ filesize_ r = filesize_ s
      /\ mtime_ r = mtime_ s /\ ctime_ r = ctime_ s)
  /\ (id_ r = rowid /\ playcount_ r = playcount_ s /\ skipcount_ r = skipcount_ s).
Proof.
  intros r. subst r.
  rewrite stored_row_BindToQuery, InitFromQuery_fst, InitArtManual_assigns.
  repeat match goal with |- _ /\ _ => split end.
  - by_cases_on_env env.
  - by_cases_on_env env.
  - by_cases_on_env env.
  - by_cases_on_env env.
  - by_cases_on_env env.
  - by_cases_on_env env.
  - by_cases_on_env env.
  - by_cases_on_env env.
  - rewrite <- (read_notnullintval (directory_id_ s)). by_cases_on_env env.
  - rewrite <- (read_notnullintval (filesize_ s)). by_cases_on_env env.
  - rewrite <- (read_notnullintval (mtime_ s)). by_cases_on_env env.
  - rewrite <- (read_notnullintval (ctime_ s)). by_cases_on_env env.
  - by_cases_on_env env.
  - by_cases_on_env env.
  - by_cases_on_env env.
Qed.

(** The members [InitFromProtobuf] writes, by the message and the record
    it is called on. *)
Lemma InitFromProtobuf_members (env : Env) (pb : SongMetadata) (s : Song) :
  let r := InitFromProtobuf env pb s in
  (title_ r = pb_title pb /\ album_ r = pb_album pb /\ artist_ r = pb_artist pb
   /\ albumartist_ r = pb_albumartist pb /\ composer_ r = pb_composer pb
   /\ performer_ r = pb_performer pb /\ grouping_ r = pb_grouping pb
   /\ genre_ r = pb_genre pb /\ comment_ r = pb_comment pb)
  /\ (track_ r = pb_track pb /\ disc_ r = pb_disc pb /\ year_ r = pb_year pb
      /\ originalyear_ r = pb_originalyear pb /\ bitrate_ r = pb_bitrate pb
      /\ samplerate_ r = pb_samplerate pb /\ bitdepth_ r = pb_bitdepth pb
      /\ lastplayed_ r = pb_lastplayed pb /\ skipcount_ r = pb_skipcount pb
      /\ mtime_ r = pb_mtime pb /\ ctime_ r = pb_ctime pb /\ filesize_ r = pb_filesize pb)
  /\ compilation_ r = pb_compilation pb
  /\ (beginning_ r = beginning_ s
      /\ end_ r = wrap64 (beginning_ s + pb_length_nanosec pb)
      /\ cue_path_ r = cue_path_ s)
  /\ art_automatic_ r
     = match pb_art_automatic_opt pb with Some a => a | None => art_automatic_ s end
  /\ playcount_ r = match pb_playcount_opt pb with Some n => n | None => playcount_ s end
  /\ art_manual_ r
     = adopted_cover env (pb_artist pb) (pb_album pb)
         match pb_art_automatic_opt pb with Some a => a | None => art_automatic_ s end
         (art_manual_ s).
Proof.
  intros r. subst r. unfold InitFromProtobuf. cbv zeta. rewrite InitArtManual_assigns.
  unfold has_art_automatic, has_playcount, pb_art_automatic, pb_playcount.
  destruct env as [[|] ? ? ? ? ? ? ? ?], (pb_art_automatic_opt pb), (pb_playcount_opt pb).
  all: evaluate.
  all: repeat match goal with |- _ /\ _ => split end.
  all: reflexivity.
Qed.

Lemma IsMetadataEqual_intro (x y : Song) :
  title_ x = title_ y -> album_ x = album_ y -> artist_ x = artist_ y ->
  albumartist_ x = albumartist_ y -> composer_ x = composer_ y ->
  performer_ x = performer_ y -> grouping_ x = grouping_ y ->
  track_ x = track_ y -> disc_ x = disc_ y -> year_ x = year_ y ->
  originalyear_ x = originalyear_ y -> genre_ x = genre_ y -> comment_ x = comment_ y ->
  compilation_ x = compilation_ y -> beginning_ x = beginning_ y ->
  length_nanosec x = length_nanosec y ->
  bitrate_ x = bitrate_ y -> samplerate_ x = samplerate_ y -> bitdepth_ x = bitdepth_ y ->
  art_automatic_ x = art_automatic_ y -> art_manual_ x = art_manual_ y ->
  cue_path_ x = cue_path_ y ->
  IsMetadataEqual x y = true.
Proof.
  intros. unfold IsMetadataEqual.
  repeat match goal with H : _ = _ |- _ => rewrite H; clear H end.
  rewrite !String.eqb_refl, !Z.eqb_refl, !Bool.eqb_reflx. reflexivity.
Qed.

Lemma IsMetadataEqual_sym (x y : Song) : IsMetadataEqual x y = IsMetadataEqual y x.
Proof.
  unfold IsMetadataEqual.
  repeat match goal with
         | |- _ && _ = _ && _ => f_equal
         end;
  first [apply String.eqb_sym | apply Z.eqb_sym
        | destruct (compilation_ x), (compilation_ y); reflexivity].
Qed.

(** A record goes through the wire adapter unchanged in its metadata when
    it starts at 0, has no CUE sheet and its manual cover is the one
    [InitArtManual] derives. *)
Lemma wire_round_trip_when (env : Env) (s s0 : Song) :
  beginning_ s = 0 -> cue_path_ s = EmptyString ->
  beginning_ s0 = 0 -> cue_path_ s0 = EmptyString ->
  art_manual_ s
  = adopted_cover env (artist_ s) (album_ s) (art_automatic_ s) (art_manual_ s0) ->
  IsMetadataEqual (InitFromProtobuf env (ToProtobuf env s) s0) s = true.
Proof.
  intros Hb Hc Hb0 Hc0 Ha.
  destruct (InitFromProtobuf_members env (ToProtobuf env s) s0)
    as ((?&?&?&?&?&?&?&?&?) & (?&?&?&?&?&?&?&?&?&?&?&?) & ? & (Eb & Ee & Ec) & Eaa & ? & Eam).
  apply IsMetadataEqual_intro; try assumption.
  - congruence.
  - unfold length_nanosec at 1. rewrite Ee, Eb, Hb0. cbn [pb_length_nanosec ToProtobuf].
    rewrite Z.add_0_l, Z.sub_0_r, wrap64_idem. unfold length_nanosec. apply wrap64_idem.
  - rewrite Eam, Ha. reflexivity.
  - congruence.
Qed.

(** ** Sentinels through the adapters *)

(** C1, as amended.  Written by [BindToQuery] and read back by
    [InitFromQuery], the members bound through [intval] (track, disc, year,
    originalyear, bitrate, samplerate, bitdepth, lastplayed) come back as
    written when positive and as -1 when zero or negative; the members
    bound through [notnullintval] (directory_id, filesize, mtime, ctime)
    come back as written, -1 included.  Written by [ToProtobuf] and read
    back by [InitFromProtobuf], every one of these the message carries
    comes back as written. *)
Theorem int_members_written_then_read (env : Env) (s s0 : Song) (query : QSqlQuery)
    (rowid : Z) (reliable : bool) :
  let r := fst (InitFromQuery env (stored_row rowid (BindToQuery env s query)) reliable 0 s0) in
  let w := InitFromProtobuf env (ToProtobuf env s) s0 in
  (forall x : Z, (0 < x -> intval x = x) /\ (x <= 0 -> intval x = -1))
  /\ (track r = intval (track s) /\ disc r = intval (disc s) /\ year r = intval (year s)
      /\ originalyear r = intval (originalyear s) /\ bitrate r = intval (bitrate s)
      /\ samplerate r = intval (samplerate s) /\ bitdepth r = intval (bitdepth s)
      /\ lastplayed r = intval (lastplayed s))
  /\ (directory_id r = directory_id s /\ filesize r = filesize s
      /\ mtime_ r = mtime_ s /\ ctime_ r = ctime_ s)
  /\ (track w = track s /\ disc w = disc s /\ year w = year s
      /\ originalyear w = originalyear s /\ bitrate w = bitrate s
      /\ samplerate w = samplerate s /\ bitdepth w = bitdepth s
      /\ lastplayed w = lastplayed s /\ filesize w = filesize s
      /\ mtime_ w = mtime_ s /\ ctime_ w = ctime_ s).
Proof.
  intros r w.
  destruct (InitFromQuery_of_stored_row env s s0 query rowid reliable) as (Hi & Hn & _).
  destruct (InitFromProtobuf_members env (ToProtobuf env s) s0)
    as (_ & (?&?&?&?&?&?&?&?&?&?&?&?) & _).
  split; [exact intval_spec|].
  split; [exact Hi|].
  split; [exact Hn|].
  unfold track, disc, year, originalyear, bitrate, samplerate, bitdepth, lastplayed, filesize.
  subst w. repeat split; assumption.
Qed.

(** C1 fails as worded: a track number of 0 is written as -1 by
    [BindToQuery] and read back as -1. *)
Lemma track_zero_read_back_unset :
  let env := Samples.installed false in
  let r := fst (InitFromQuery env (stored_row 1 (BindToQuery env Samples.track_zero []))
                  true 0 Samples.fresh) in
  0 <= track Samples.track_zero /\ track r = -1 /\ track r <> track Samples.track_zero.
Proof.
  vm_compute. repeat split; discriminate.
Qed.

(** ** Wire round trip *)

(** C2, as amended.  A record populated by [InitFromProtobuf] from any
    message, with [art_automatic] and [playcount] present or absent, then
    serialised by [ToProtobuf] and read into another fresh record, is
    metadata-equal to the first. *)
Theorem wire_round_trip_metadata_equal (env : Env) (pb : SongMetadata) (g g' : Z) :
  let s := InitFromProtobuf env pb (Song_ctor g) in
  let s' := InitFromProtobuf env (ToProtobuf env s) (Song_ctor g') in
  IsMetadataEqual s' s = true /\ IsMetadataEqual s s' = true.
Proof.
  intros s s'.
  assert (H : IsMetadataEqual s' s = true).
  { subst s'.
    destruct (InitFromProtobuf_members env pb (Song_ctor g))
      as ((_&Hal&Har&_) & _ & _ & (Eb & _ & Ec) & Eaa & _ & Eam).
    fold s in Hal, Har, Eb, Ec, Eaa, Eam.
    apply wire_round_trip_when; try assumption; try reflexivity.
    rewrite Eam, Hal, Har, Eaa. reflexivity. }
  split; [exact H|]. rewrite IsMetadataEqual_sym. exact H.
Qed.

(** C2 fails as worded: the message carries no CUE path, so a track of a
    CUE sheet comes back without one. *)
Lemma wire_round_trip_loses_cue_path :
  let env := Samples.installed false in
  let s := Samples.cue_track_one in
  let s' := InitFromProtobuf env (ToProtobuf env s) Samples.fresh in
  cue_path s = "disc.cue" /\ cue_path s' = EmptyString /\ IsMetadataEqual s' s = false.
Proof.
  vm_compute. repeat split.
Qed.

(** ** Truncated rows *)

Lemma InitFromQuery_loop_visit (env : Env) (q : SqlRow) (name : string)
    (later : list string) (x : Z) (st : Song * list LogEntry) :
  x + 1 < size q ->
  InitFromQuery_loop env q (name :: later) x st
  = InitFromQuery_loop env q later (x + 1) (InitFromQuery_column env q name (x + 1) st).
Proof.
  intros H. cbn [InitFromQuery_loop].
  destruct (x + 1 >=? size q) eqn:E; [|reflexivity].
  rewrite Z.geb_le in E. lia.
Qed.

Lemma InitFromQuery_loop_skip (env : Env) (q : SqlRow) (name : string)
    (later : list string) (x : Z) (st : Song * list LogEntry) :
  size q <= x + 1 ->
  InitFromQuery_loop env q (name :: later) x st
  = (fst st, (snd st ++ [(Error, ["Skipping"; name])])%list).
Proof.
  intros H. cbn [InitFromQuery_loop].
  destruct (x + 1 >=? size q) eqn:E; [reflexivity|].
  rewrite Z.geb_leb, Z.leb_gt in E. lia.
Qed.

(** C8, as amended.  From a row that holds the id column at [col] and
    ends after the tenth column of [kColumns], [InitFromQuery] reads the id
    and each of the ten columns, every read falling inside the row, logs
    one error line naming the eleventh and returns; the members of the
    later columns are what the default constructor left, but for
    [art_manual_], which [InitArtManual] sets to the cached cover of
    (artist, album) when that file exists. *)
Theorem InitFromQuery_truncated_row (env : Env) (q : SqlRow) (reliable : bool)
    (col indeterminate : Z) :
  0 <= col ->
  size q = col + 11 ->
  let r := fst (InitFromQuery env q reliable col (Song_ctor indeterminate)) in
  snd (InitFromQuery env q reliable col (Song_ctor indeterminate))
  = [(Error, ["Skipping"; "composer"])]
  /\ (forall i : Z,
         0 <= i <= 10 ->
         (Z.to_nat (col + i) < List.length (columns_ q))%nat
         /\ value q (col + i) = nth (Z.to_nat (col + i)) (columns_ q) QV_Invalid)
  /\ id r = toint q col
  /\ (title r = tostr q (col + 1) /\ album r = tostr q (col + 2)
      /\ artist r = tostr q (col + 3) /\ albumartist r = tostr q (col + 4)
      /\ track r = toint q (col + 5) /\ disc r = toint q (col + 6)
      /\ year r = toint q (col + 7) /\ originalyear r = toint q (col + 8)
      /\ genre r = tostr q (col + 9) /\ compilation_ r = toBool (value q (col + 10)))
  /\ (composer r = EmptyString /\ performer r = EmptyString /\ grouping r = EmptyString
      /\ comment r = EmptyString)
  /\ (beginning_nanosec r = 0 /\ end_nanosec r = -1)
  /\ (bitrate r = -1 /\ samplerate r = -1 /\ bitdepth r = indeterminate)
  /\ (directory_id r = -1 /\ url r = EmptyString /\ basefilename r = EmptyString
      /\ filetype r = Type_Unknown /\ filesize r = -1 /\ mtime_ r = -1 /\ ctime_ r = -1
      /\ unavailable_ r = false)
  /\ (playcount r = 0 /\ skipcount r = 0 /\ lastplayed r = -1)
  /\ (compilation_detected_ r = false /\ compilation_on_ r = false
      /\ compilation_off_ r = false)
  /\ (art_automatic r = EmptyString /\ cue_path r = EmptyString)
  /\ art_manual r
     = (if file_exists env (cover_cache_path env (artist r) (album r))
        then cover_cache_path env (artist r) (album r)
        else EmptyString)
  /\ (is_valid r = true /\ init_from_file_ r = reliable).
Proof.
  intros Hcol Hsize r. subst r.
  split; [|split].
  - rewrite InitFromQuery_snd. unfold kColumns.
    do 10 (rewrite InitFromQuery_loop_visit by lia).
    rewrite InitFromQuery_loop_skip by lia. reflexivity.
  - intros i Hi. unfold size in Hsize. split; [lia|].
    unfold value. destruct (col + i <? 0) eqn:E; [|reflexivity].
    apply Z.ltb_lt in E. lia.
  - rewrite InitFromQuery_fst, InitArtManual_assigns.
    unfold kColumns.
    do 10 (rewrite InitFromQuery_loop_visit by lia).
    rewrite InitFromQuery_loop_skip by lia.
    replace (col + 1 + 1) with (col + 2) by ring.
    replace (col + 2 + 1) with (col + 3) by ring.
    replace (col + 3 + 1) with (col + 4) by ring.
    replace (col + 4 + 1) with (col + 5) by ring.
    replace (col + 5 + 1) with (col + 6) by ring.
    replace (col + 6 + 1) with (col + 7) by ring.
    replace (col + 7 + 1) with (col + 8) by ring.
    replace (col + 8 + 1) with (col + 9) by ring.
    replace (col + 9 + 1) with (col + 10) by ring.
    evaluate.
    repeat match goal with |- _ /\ _ => split end; reflexivity.
Qed.

Lemma InitFromQuery_truncated_row_witness :
  let r := fst (InitFromQuery (Samples.installed false) Samples.truncated_row true 0
                  (Song_ctor 0)) in
  0 <= 0
  /\ size Samples.truncated_row = 0 + 11
  /\ snd (InitFromQuery (Samples.installed false) Samples.truncated_row true 0 (Song_ctor 0))
     = [(Error, ["Skipping"; "composer"])]
  /\ id r = toint Samples.truncated_row 0
  /\ (title r = tostr Samples.truncated_row (0 + 1)
      /\ album r = tostr Samples.truncated_row (0 + 2)
      /\ artist r = tostr Samples.truncated_row (0 + 3)
      /\ albumartist r = tostr Samples.truncated_row (0 + 4)
      /\ track r = toint Samples.truncated_row (0 + 5)
      /\ disc r = toint Samples.truncated_row (0 + 6)
      /\ year r = toint Samples.truncated_row (0 + 7)
      /\ originalyear r = toint Samples.truncated_row (0 + 8)
      /\ genre r = tostr Samples.truncated_row (0 + 9)
      /\ compilation_ r = toBool (value Samples.truncated_row (0 + 10))).
Proof.
  assert (Hc : 0 <= 0) by lia.
  assert (H : size Samples.truncated_row = 0 + 11) by reflexivity.
  pose proof (InitFromQuery_truncated_row (Samples.installed false) Samples.truncated_row
                true 0 0 Hc H) as T.
  cbv zeta in T. cbv zeta.
  split; [exact Hc|]. split; [exact H|].
  split; [exact (proj1 T)|].
  split; [exact (proj1 (proj2 (proj2 T)))|].
  exact (proj1 (proj2 (proj2 (proj2 T)))).
Defined.

(** C8 fails as worded: with a cover for (artist, album) in the cache,
    [art_manual_], a member of a column past the tenth, does not stay
    empty. *)
Lemma truncated_row_adopts_cached_cover :
  let r := fst (InitFromQuery (Samples.installed true) Samples.truncated_row true 0
                  Samples.fresh) in
  size Samples.truncated_row = 11
  /\ art_manual Samples.fresh = EmptyString
  /\ art_manual r = "/cache/Artist-Album.jpg"
  /\ art_manual r <> art_manual Samples.fresh.
Proof.
  vm_compute. repeat split; discriminate.
Qed.

(** * Further properties *)

(** ** Arithmetic of [qint64], continued *)

Lemma wrap64_range (z : Z) : in_int64 (wrap64 z).
Proof.
  unfold in_int64, wrap64, wrap. change (64 - 1) with 63.
  pose proof (Z.mod_pos_bound (z + 2 ^ 63) (2 ^ 64) ltac:(lia)). lia.
Qed.

Lemma wrap64_add_r (a b : Z) : wrap64 (a + wrap64 b) = wrap64 (a + b).
Proof.
  unfold wrap64, wrap. change (64 - 1) with 63. f_equal.
  replace (a + ((b + 2 ^ 63) mod 2 ^ 64 - 2 ^ 63) + 2 ^ 63)
    with (a + (b + 2 ^ 63) mod 2 ^ 64) by ring.
  rewrite Zplus_mod_idemp_r. f_equal. ring.
Qed.

Lemma intval_in_int64 (x : Z) : in_int64 x -> in_int64 (intval x).
Proof.
  unfold intval, in_int64. destruct (x <=? 0); lia.
Qed.

Lemma toBool_of_bool (b : bool) : toBool (of_bool b) = b.
Proof. destruct b; reflexivity. Qed.

(** Evaluation of a read from a row whose columns are known. *)
Ltac evaluate_row :=
  lazy -[intval notnullintval wrap64 stored_filename number parse_number wrap32
         effective_originalyear effective_albumartist is_compilation adopted_cover
         of_bool toBool length_nanosec].

Ltac read_member env :=
  destruct env as [[|] ? ? ? ? ? ? ? ?]; evaluate_row; reflexivity.

(** The text, the flags and the timing [InitFromQuery] reads from a row
    that [BindToQuery] stored. *)
Lemma InitFromQuery_of_stored_row_text (env : Env) (s s0 : Song) (query : QSqlQuery)
    (rowid : Z) (reliable : bool) :
  let r := fst (InitFromQuery env (stored_row rowid (BindToQuery env s query)) reliable 0 s0) in
  (title_ r = title_ s /\ album_ r = album_ s /\ artist_ r = artist_ s
   /\ albumartist_ r = albumartist_ s /\ genre_ r = genre_ s /\ composer_ r = composer_ s
   /\ performer_ r = performer_ s /\ grouping_ r = grouping_ s /\ comment_ r = comment_ s
   /\ art_automatic_ r = art_automatic_ s /\ cue_path_ r = cue_path_ s)
  /\ (compilation_ r = compilation_ s /\ unavailable_ r = unavailable_ s
      /\ compilation_detected_ r = compilation_detected_ s
      /\ compilation_on_ r = compilation_on_ s /\ compilation_off_ r = compilation_off_ s)
  /\ (beginning_ r = beginning_ s
      /\ end_ r = wrap64 (beginning_ s + intval (length_nanosec s)))
  /\ art_manual_ r
     = adopted_cover env (artist_ s) (album_ s) (art_automatic_ s) (art_manual_ s)
  /\ (valid_ r = true /\ init_from_file_ r = reliable).
Proof.
  intros r. subst r.
  rewrite stored_row_BindToQuery, InitFromQuery_fst, InitArtManual_assigns.
  repeat match goal with |- _ /\ _ => split end.
  - read_member env.
  - read_member env.
  - read_member env.
  - read_member env.
  - read_member env.
  - read_member env.
  - read_member env.
  - read_member env.
  - read_member env.
  - read_member env.
  - read_member env.
  - rewrite <- (toBool_of_bool (compilation_ s)). read_member env.
  - rewrite <- (toBool_of_bool (unavailable_ s)). read_member env.
  - rewrite <- (toBool_of_bool (compilation_detected_ s)). read_member env.
  - rewrite <- (toBool_of_bool (compilation_on_ s)). read_member env.
  - rewrite <- (toBool_of_bool (compilation_off_ s)). read_member env.
  - read_member env.
  - read_member env.
  - read_member env.
  - read_member env.
  - read_member env.
Qed.

(** ** Relational round trip *)

Lemma length_read_back (r s : Song) :
  beginning_ r = beginning_ s ->
  end_ r = wrap64 (beginning_ s + intval (length_nanosec s)) ->
  length_nanosec r = intval (length_nanosec s).
Proof.
  intros Hb He. unfold length_nanosec at 1. rewrite He, Hb, wrap64_sub_l.
  replace (beginning_ s + intval (length_nanosec s) - beginning_ s)
    with (intval (length_nanosec s)) by ring.
  apply wrap64_in_range, intval_in_int64. unfold length_nanosec. apply wrap64_range.
Qed.

(** X1.  Through [BindToQuery] and [InitFromQuery], [beginning_] comes back
    as written; the length comes back as written when positive and as -1
    otherwise, because the row holds [intval(length)] and the read puts the
    end at [beginning_ + length]; so a positive length restores [end_],
    and a length of zero or less leaves the end one nanosecond before the
    beginning. *)
Theorem relational_round_trip_timing (env : Env) (s s0 : Song) (query : QSqlQuery)
    (rowid : Z) (reliable : bool) :
  let r := fst (InitFromQuery env (stored_row rowid (BindToQuery env s query)) reliable 0 s0) in
  beginning_nanosec r = beginning_nanosec s
  /\ length_nanosec r = intval (length_nanosec s)
  /\ (0 < length_nanosec s -> in_int64 (end_nanosec s) -> end_nanosec r = end_nanosec s)
  /\ (length_nanosec s <= 0 -> end_nanosec r = wrap64 (beginning_nanosec s - 1)).
Proof.
  intros r.
  destruct (InitFromQuery_of_stored_row_text env s s0 query rowid reliable)
    as (_ & _ & (Hb & He) & _).
  fold r in Hb, He. unfold beginning_nanosec, end_nanosec.
  split; [exact Hb|]. split; [|split].
  - now apply length_read_back.
  - intros Hpos Hend. rewrite He.
    destruct (intval_spec (length_nanosec s)) as [Hi _]. rewrite (Hi Hpos).
    unfold length_nanosec. rewrite wrap64_add_r.
    replace (beginning_ s + (end_ s - beginning_ s)) with (end_ s) by ring.
    now apply wrap64_in_range.
  - intros Hle. rewrite He.
    destruct (intval_spec (length_nanosec s)) as [_ Hi]. rewrite (Hi Hle).
    f_equal.
Qed.

Lemma InitFromQuery_of_stored_row_url (env : Env) (s s0 : Song) (query : QSqlQuery)
    (rowid : Z) (reliable : bool) :
  kIsPortable env = false ->
  url_ (fst (InitFromQuery env (stored_row rowid (BindToQuery env s query)) reliable 0 s0))
  = url_ s.
Proof.
  intros Hp.
  rewrite stored_row_BindToQuery, InitFromQuery_fst, InitArtManual_assigns.
  destruct env as [[|] ? ? ? ? ? ? ? ?]; [discriminate Hp|].
  lazy -[intval notnullintval wrap64 number parse_number wrap32 effective_originalyear
         effective_albumartist is_compilation of_bool length_nanosec].
  reflexivity.
Qed.

(** The members bound through [intval] survive when they are positive or
    the sentinel. *)
Lemma intval_fixed (x : Z) : 0 < x \/ x = -1 -> intval x = x.
Proof.
  intros [H | H].
  - now apply intval_spec.
  - subst x. reflexivity.
Qed.

(** X2.  A record whose [intval]-bound members and length are each positive
    or -1, and for which [InitArtManual] has no cover to adopt, is
    metadata-equal to what [InitFromQuery] reads from the row
    [BindToQuery] stored for it; outside portable mode the two are also
    [operator==]-equal. *)
Theorem relational_round_trip_metadata_equal (env : Env) (s s0 : Song) (query : QSqlQuery)
    (rowid : Z) (reliable : bool) :
  Forall (fun x => 0 < x \/ x = -1)
    [track s; disc s; year s; originalyear s; bitrate s; samplerate s; bitdepth s;
     length_nanosec s] ->
  art_manual s <> EmptyString \/ art_automatic s <> EmptyString
  \/ file_exists env (cover_cache_path env (artist s) (album s)) = false ->
  let r := fst (InitFromQuery env (stored_row rowid (BindToQuery env s query)) reliable 0 s0) in
  IsMetadataEqual r s = true
  /\ (kIsPortable env = false -> equal r s = true).
Proof.
  intros Hints Hart r.
  repeat match goal with
         | H : Forall _ (_ :: _) |- _ => inversion H; subst; clear H
         end.
  repeat match goal with
         | H : _ \/ _ |- _ =>
             match type of H with (0 < ?x \/ ?x = -1) => apply intval_fixed in H end
         end.
  pose proof (InitFromQuery_of_stored_row env s s0 query rowid reliable) as Hi.
  pose proof (InitFromQuery_of_stored_row_text env s s0 query rowid reliable) as Ht.
  pose proof (InitFromQuery_of_stored_row_url env s s0 query rowid reliable) as Hu.
  cbv zeta in Hi, Ht. fold r in Hi, Ht, Hu. clearbody r.
  destruct Hi as ((?&?&?&?&?&?&?&?) & _).
  destruct Ht as ((?&?&?&?&?&?&?&?&?&?&?) & (?&_) & (Hb & He) & Ham & _).
  pose proof (length_read_back r s Hb He) as Hlen.
  unfold track, disc, year, originalyear, bitrate, samplerate, bitdepth in *.
  split.
  - apply IsMetadataEqual_intro; try congruence.
    rewrite Ham. unfold adopted_cover, art_manual, art_automatic, artist, album in *.
    destruct Hart as [Hm | [Ha | Hf]].
    + apply String.eqb_neq in Hm. unfold isEmpty. rewrite Hm. reflexivity.
    + apply String.eqb_neq in Ha. unfold isEmpty. rewrite Ha, andb_false_r. reflexivity.
    + rewrite Hf. destruct (isEmpty _ && isEmpty _); reflexivity.
  - intros Hp. unfold equal, url, beginning_nanosec.
    rewrite (Hu Hp), Hb, String.eqb_refl, Z.eqb_refl. reflexivity.
Qed.

Lemma relational_round_trip_metadata_equal_witness :
  let env := Samples.installed false in
  let r := fst (InitFromQuery env (stored_row 1 (BindToQuery env Samples.tagged_track []))
                  true 0 Samples.fresh) in
  IsMetadataEqual r Samples.tagged_track = true
  /\ (kIsPortable env = false -> equal r Samples.tagged_track = true).
Proof.
  apply (relational_round_trip_metadata_equal (Samples.installed false) Samples.tagged_track
           Samples.fresh [] 1 true).
  - repeat constructor; first [left; reflexivity | right; reflexivity].
  - right. right. reflexivity.
Defined.

(** X3.  What [InitFromQuery] reads from the row [BindToQuery] stored has
    the compilation state, the album key and the same-album grouping of
    the record written, with no condition on the record. *)
Theorem relational_round_trip_grouping (env : Env) (s s0 : Song) (query : QSqlQuery)
    (rowid : Z) (reliable : bool) :
  let r := fst (InitFromQuery env (stored_row rowid (BindToQuery env s query)) reliable 0 s0) in
  is_compilation r = is_compilation s
  /\ AlbumKey r = AlbumKey s
  /\ (forall other : Song,
         IsOnSameAlbum r other = IsOnSameAlbum s other
         /\ IsOnSameAlbum other r = IsOnSameAlbum other s).
Proof.
  intros r.
  pose proof (InitFromQuery_of_stored_row_text env s s0 query rowid reliable) as H.
  cbv zeta in H. fold r in H. clearbody r.
  destruct H as ((Ht&Hal&Har&Haa&_&_&_&_&_&_&Hcue) & (Hc&_&Hd&Hon&Hoff) & _).
  assert (Ec : is_compilation r = is_compilation s).
  { unfold is_compilation. now rewrite Hc, Hd, Hon, Hoff. }
  assert (Eea : effective_album r = effective_album s).
  { unfold effective_album. now rewrite Hal, Ht. }
  assert (Eaa : effective_albumartist r = effective_albumartist s).
  { unfold effective_albumartist. now rewrite Haa, Har. }
  assert (Ecue : has_cue r = has_cue s).
  { unfold has_cue. now rewrite Hcue. }
  split; [exact Ec|]. split.
  - unfold AlbumKey, cue_path. now rewrite Ec, Eea, Eaa, Ecue, Hcue.
  - intros other. unfold IsOnSameAlbum, cue_path, album.
    now rewrite Ec, Eea, Eaa, Ecue, Hcue, Hal.
Qed.

(** ** What [InitFromQuery] reads and reports *)

Lemma InitFromQuery_column_reads_value (env : Env) (q q' : SqlRow) (name : string) (x : Z)
    (st : Song * list LogEntry) :
  value q x = value q' x ->
  InitFromQuery_column env q name x st = InitFromQuery_column env q' name x st.
Proof.
  intros H. unfold InitFromQuery_column, tostr, toint, tolonglong. rewrite H. reflexivity.
Qed.

Lemma InitFromQuery_column_derived (env : Env) (q : SqlRow) (name : string) (x : Z)
    (st : Song * list LogEntry) :
  derived_column name = true -> InitFromQuery_column env q name x st = st.
Proof.
  unfold derived_column. intros H.
  apply orb_true_iff in H as [H | H]; [apply orb_true_iff in H as [H | H]|];
    apply String.eqb_eq in H; subst name; destruct st; reflexivity.
Qed.

Lemma InitFromQuery_loop_agree (env : Env) (q q' : SqlRow) :
  size q = size q' ->
  forall (columns : list string) (x : Z) (st : Song * list LogEntry),
    (forall (i : nat) (name : string),
        nth_error columns i = Some name -> derived_column name = false ->
        value q (x + 1 + Z.of_nat i) = value q' (x + 1 + Z.of_nat i)) ->
    InitFromQuery_loop env q columns x st = InitFromQuery_loop env q' columns x st.
Proof.
  intros Hsize columns. induction columns as [|name later IH]; intros x st Hv.
  - reflexivity.
  - cbn [InitFromQuery_loop]. rewrite <- Hsize.
    destruct (x + 1 >=? size q); [reflexivity|].
    assert (E : InitFromQuery_column env q name (x + 1) st
                = InitFromQuery_column env q' name (x + 1) st).
    { destruct (derived_column name) eqn:D.
      - now rewrite !InitFromQuery_column_derived.
      - apply InitFromQuery_column_reads_value.
        specialize (Hv 0%nat name eq_refl D). now rewrite Z.add_0_r in Hv. }
    rewrite E. apply IH. intros i n Hn Hd.
    specialize (Hv (S i) n Hn Hd).
    replace (x + 1 + 1 + Z.of_nat i) with (x + 1 + Z.of_nat (S i)) by lia. exact Hv.
Qed.

(** X4.  [InitFromQuery] reads nothing from the derived columns
    ([compilation_effective], [effective_albumartist],
    [effective_originalyear]): two rows of one length that agree on the id
    column and on every other column give the same record and the same
    log. *)
Theorem InitFromQuery_ignores_derived_columns (env : Env) (q q' : SqlRow) (reliable : bool)
    (col : Z) (s0 : Song) :
  size q = size q' ->
  value q col = value q' col ->
  (forall (i : nat) (name : string),
      nth_error kColumns i = Some name -> derived_column name = false ->
      value q (col + 1 + Z.of_nat i) = value q' (col + 1 + Z.of_nat i)) ->
  InitFromQuery env q reliable col s0 = InitFromQuery env q' reliable col s0.
Proof.
  intros Hsize Hid Hv. unfold InitFromQuery, toint. rewrite Hid.
  rewrite (InitFromQuery_loop_agree env q q' Hsize kColumns col _ Hv). reflexivity.
Qed.

Lemma InitFromQuery_ignores_derived_columns_witness :
  value Samples.full_row 33 <> value Samples.full_row_rederived 33
  /\ InitFromQuery (Samples.installed false) Samples.full_row true 0 Samples.fresh
     = InitFromQuery (Samples.installed false) Samples.full_row_rederived true 0
         Samples.fresh.
Proof.
  split; [discriminate|].
  apply (InitFromQuery_ignores_derived_columns (Samples.installed false) Samples.full_row
           Samples.full_row_rederived true 0 Samples.fresh).
  - reflexivity.
  - reflexivity.
  - intros i name Hn Hd.
    do 38 (destruct i as [|i];
           [first [reflexivity | (injection Hn as <-; discriminate Hd)]|]).
    destruct i; discriminate Hn.
Defined.

Lemma InitFromQuery_column_log (env : Env) (q : SqlRow) (name : string) (x : Z)
    (st : Song * list LogEntry) :
  In name kColumns -> snd (InitFromQuery_column env q name x st) = snd st.
Proof.
  unfold kColumns. intros H.
  repeat (destruct H as [H | H]; [subst name; reflexivity|]).
  destruct H.
Qed.

Lemma InitFromQuery_loop_log (env : Env) (q : SqlRow) :
  forall (columns : list string) (x : Z) (st : Song * list LogEntry),
    (forall name, In name columns -> In name kColumns) ->
    snd (InitFromQuery_loop env q columns x st)
    = (snd st ++
       if x + Z.of_nat (List.length columns) <? size q then []
       else match columns with
            | [] => []
            | _ => [(Error, ["Skipping"; nth (Z.to_nat (size q - (x + 1))) columns EmptyString])]
            end)%list.
Proof.
  induction columns as [|name later IH]; intros x st Hin.
  - cbn. destruct (_ <? _); now rewrite app_nil_r.
  - cbn [InitFromQuery_loop].
    destruct (x + 1 >=? size q) eqn:E.
    + rewrite Z.geb_le in E. cbn [snd List.length].
      destruct (x + Z.of_nat (S (List.length later)) <? size q) eqn:F.
      { apply Z.ltb_lt in F. lia. }
      replace (Z.to_nat (size q - (x + 1))) with 0%nat by lia. reflexivity.
    + rewrite Z.geb_leb, Z.leb_gt in E.
      rewrite IH by (intros n Hn; apply Hin; now right).
      rewrite InitFromQuery_column_log by (apply Hin; now left).
      f_equal. cbn [List.length].
      replace (x + 1 + Z.of_nat (List.length later))
        with (x + Z.of_nat (S (List.length later))) by lia.
      destruct (x + Z.of_nat (S (List.length later)) <? size q) eqn:F; [reflexivity|].
      apply Z.ltb_ge in F.
      destruct later as [|n2 later2].
      { cbn [List.length] in F. lia. }
      replace (Z.to_nat (size q - (x + 1))) with (S (Z.to_nat (size q - (x + 1 + 1)))) by lia.
      reflexivity.
Qed.

(** X5.  [InitFromQuery] logs nothing for a row that holds every column of
    [kColumns] after the id column, and otherwise one error line,
    [Skipping] with the name of the first column the row does not hold;
    the branch that logs [Forgot to handle] is never taken. *)
Theorem InitFromQuery_log (env : Env) (q : SqlRow) (reliable : bool) (col : Z) (s0 : Song) :
  snd (InitFromQuery env q reliable col s0)
  = if col + 38 <? size q then []
    else [(Error, ["Skipping"; nth (Z.to_nat (size q - (col + 1))) kColumns EmptyString])].
Proof.
  rewrite InitFromQuery_snd, InitFromQuery_loop_log by auto.
  cbn [snd app]. reflexivity.
Qed.

(** ** What the adapters bind *)

Lemma bind_all_other (p : string) (l : list (string * QVariant)) (query : QSqlQuery) :
  ~ In p (map fst l) -> boundValue p (bind_all l query) = boundValue p query.
Proof.
  rewrite boundValue_bind_all. generalize (boundValue p query).
  induction l as [|[k v] later IH]; intros o Hn; cbn in *.
  - reflexivity.
  - destruct (String.eqb k p) eqn:E.
    + apply String.eqb_eq in E. tauto.
    + apply IH. tauto.
Qed.

(** X6.  [BindToQuery] follows [kBindSpec]: on a query with nothing bound
    it leaves one binding for each column of [kColumns], in that order,
    under the column's name with a colon before it; on any query, it leaves
    the value of every other placeholder as it was. *)
Theorem BindToQuery_placeholders (env : Env) (s : Song) :
  map fst (BindToQuery env s []) = map (String.append ":") kColumns
  /\ (forall (query : QSqlQuery) (p : string),
         ~ In p (map (String.append ":") kColumns) ->
         boundValue p (BindToQuery env s query) = boundValue p query).
Proof.
  split.
  - unfold BindToQuery. cbv zeta.
    destruct (kIsPortable env && UrlOnSameDriveAsStrawberry env (url_ s)); reflexivity.
  - intros query p Hp. rewrite BindToQuery_bind_all. apply bind_all_other. exact Hp.
Qed.

(** X7.  The full-text row repeats the text of the relational row:
    [kFtsColumns] are the nine text columns with [fts] before the name,
    [BindToFtsQuery] binds exactly those, and the value it binds for a
    column reads as the same text as the value [BindToQuery] binds for it.
    Only the text is compared: for a null member [BindToQuery] binds the
    empty string [strval] makes of it and [BindToFtsQuery] binds the member
    as it is, and read as text the two are equal. *)
Theorem BindToFtsQuery_matches_BindToQuery (env : Env) (s : Song) :
  kFtsColumns = map (String.append "fts") searchable
  /\ map fst (BindToFtsQuery s []) = map (String.append ":") kFtsColumns
  /\ (forall (c : string) (query query' : QSqlQuery),
         In c searchable ->
         toString (boundValue (":fts" ++ c) (BindToFtsQuery s query))
         = toString (boundValue (":" ++ c) (BindToQuery env s query'))).
Proof.
  split; [reflexivity|]. split; [reflexivity|].
  intros c query query' Hc.
  rewrite BindToQuery_bind_all, boundValue_bind_all.
  unfold BindToFtsQuery. rewrite !boundValue_bindValue.
  unfold searchable in Hc.
  repeat (destruct Hc as [Hc | Hc]; [subst c; reflexivity|]).
  destruct Hc.
Qed.

(** ** Same-album grouping as a relation *)

(** X8.  [IsOnSameAlbum] holds of every record with itself and does not
    depend on the order of its two arguments. *)
Theorem IsOnSameAlbum_reflexive_symmetric :
  (forall a : Song, IsOnSameAlbum a a = true)
  /\ (forall a b : Song, IsOnSameAlbum a b = IsOnSameAlbum b a).
Proof.
  split.
  - intros a. apply IsOnSameAlbum_true. split; [reflexivity|]. right. right. now split.
  - assert (H : forall a b, IsOnSameAlbum a b = true -> IsOnSameAlbum b a = true).
    { intros a b Hab. apply IsOnSameAlbum_true in Hab as [Hc H].
      apply IsOnSameAlbum_true. split; [now symmetry|].
      destruct H as [[Hn He] | [[Hca He] | [He Hea]]].
      - left. split; congruence.
      - right. left. split; congruence.
      - right. right. split; congruence. }
    intros a b.
    destruct (IsOnSameAlbum a b) eqn:Eab, (IsOnSameAlbum b a) eqn:Eba; try reflexivity.
    + apply H in Eab. congruence.
    + apply H in Eba. congruence.
Qed.

(** X9.  [IsOnSameAlbum] is not transitive: a track of a CUE sheet is
    grouped with another track of the sheet, that one with a track of the
    same title outside the sheet, and the first and the third are not
    grouped. *)
Theorem IsOnSameAlbum_not_transitive :
  exists a b c : Song,
    IsOnSameAlbum a b = true /\ IsOnSameAlbum b c = true /\ IsOnSameAlbum a c = false.
Proof.
  exists Samples.cue_track_one, Samples.cue_track_two, Samples.single_two.
  repeat split.
Qed.

(** ** User-set data and the comparisons *)

(** X10.  [a.MergeUserSetData(b)] leaves [a] the same playable unit
    ([operator==]), in the same album group ([AlbumKey], [IsOnSameAlbum],
    [is_compilation]); it stays metadata-equal to [a] exactly when the two
    manual covers are the same text; and merging the same record again
    changes nothing. *)
Theorem MergeUserSetData_and_comparisons (a b : Song) :
  let m := MergeUserSetData b a in
  equal m a = true
  /\ AlbumKey m = AlbumKey a
  /\ is_compilation m = is_compilation a
  /\ (forall c : Song, IsOnSameAlbum m c = IsOnSameAlbum a c)
  /\ IsMetadataEqual m a = String.eqb (art_manual b) (art_manual a)
  /\ MergeUserSetData b m = m.
Proof.
  intros m. subst m.
  unfold MergeUserSetData, set_playcount, set_skipcount, set_lastplayed, set_art_manual.
  repeat match goal with |- _ /\ _ => split end; try reflexivity.
  - unfold equal, url, beginning_nanosec. cbn.
    now rewrite String.eqb_refl, Z.eqb_refl.
  - unfold IsMetadataEqual. cbn.
    rewrite !String.eqb_refl, !Z.eqb_refl, Bool.eqb_reflx. cbn.
    unfold art_manual. now rewrite andb_true_r.
Qed.

(** ** Equality and hashing *)

(** X11.  [qHash(const Song &)] agrees with [operator==]: two records that
    are [==]-equal have the same hash, whatever the hash functions of
    [QString] and [qint64] are. *)
Theorem qHash_respects_equal (url_toString : QUrl -> QString)
    (qHash_QString : QString -> Z) (qHash_qint64 : Z -> Z) (a b : Song) :
  equal a b = true ->
  qHash url_toString qHash_QString qHash_qint64 a
  = qHash url_toString qHash_QString qHash_qint64 b.
Proof.
  unfold equal, qHash. intros H.
  apply andb_true_iff in H as [Hu Hb].
  apply String.eqb_eq in Hu. apply Z.eqb_eq in Hb. now rewrite Hu, Hb.
Qed.

Lemma qHash_respects_equal_witness :
  equal Samples.single_a Samples.single_b = true
  /\ qHash (fun u => u) Samples.sample_qHash_QString Samples.sample_qHash_qint64
       Samples.single_a
     = qHash (fun u => u) Samples.sample_qHash_QString Samples.sample_qHash_qint64
         Samples.single_b.
Proof.
  split; [reflexivity|].
  apply (qHash_respects_equal (fun u => u) Samples.sample_qHash_QString
           Samples.sample_qHash_qint64 Samples.single_a Samples.single_b).
  reflexivity.
Defined.

(** ** Engine metadata *)

(** X12.  Engine metadata never overrides what the tag reader or the
    collection delivered: after [InitFromProtobuf], and after
    [InitFromQuery] with [reliable_metadata], [MergeFromSimpleMetaBundle]
    returns the record as it is, whatever the bundle and the locator. *)
Theorem MergeFromSimpleMetaBundle_after_reliable_init (scheme : QUrl -> QString)
    (bundle : SimpleMetaBundle) (env : Env) (s0 : Song) :
  (forall pb : SongMetadata,
      MergeFromSimpleMetaBundle scheme bundle (InitFromProtobuf env pb s0)
      = InitFromProtobuf env pb s0)
  /\ (forall (q : SqlRow) (col : Z),
         MergeFromSimpleMetaBundle scheme bundle (fst (InitFromQuery env q true col s0))
         = fst (InitFromQuery env q true col s0)).
Proof.
  assert (G : forall s, init_from_file_ s = true ->
                        MergeFromSimpleMetaBundle scheme bundle s = s).
  { intros s H. unfold MergeFromSimpleMetaBundle. now rewrite H. }
  split.
  - intros pb. apply G. unfold InitFromProtobuf. cbv zeta. rewrite InitArtManual_assigns.
    unfold set_url.
    destruct (has_art_automatic pb), (has_playcount pb), (kIsPortable env); reflexivity.
  - intros q col. apply G. rewrite InitFromQuery_fst, InitArtManual_assigns. reflexivity.
Qed.

(** [MergeFromSimpleMetaBundle] past its guard, as the steps it takes one
    after the other. *)
Lemma MergeFromSimpleMetaBundle_steps (scheme : QUrl -> QString) (bundle : SimpleMetaBundle)
    (s : Song) :
  init_from_file_ s || String.eqb (scheme (url_ s)) "file" = false ->
  MergeFromSimpleMetaBundle scheme bundle s
  = when (negb (isEmpty (bundle_tracknr bundle)))
      (assign_track_ (QString_toInt (bundle_tracknr bundle)))
    (when (negb (isEmpty (bundle_year bundle)))
      (assign_year_ (QString_toInt (bundle_year bundle)))
    (when (negb (isEmpty (bundle_length bundle)))
      (set_length_nanosec (QString_toLongLong (bundle_length bundle)))
    (when (negb (isEmpty (bundle_bitdepth bundle)))
      (assign_samplerate_ (QString_toInt (bundle_bitdepth bundle)))
    (when (negb (isEmpty (bundle_samplerate bundle)))
      (assign_samplerate_ (QString_toInt (bundle_samplerate bundle)))
    (when (negb (isEmpty (bundle_bitrate bundle)))
      (assign_bitrate_ (QString_toInt (bundle_bitrate bundle)))
    (when (negb (isEmpty (bundle_genre bundle))) (assign_genre_ (bundle_genre bundle))
    (when (negb (isEmpty (bundle_comment bundle))) (assign_comment_ (bundle_comment bundle))
    (when (negb (isEmpty (bundle_album bundle))) (assign_album_ (bundle_album bundle))
    (when (negb (isEmpty (bundle_artist bundle))) (assign_artist_ (bundle_artist bundle))
    (when (negb (isEmpty (bundle_title bundle))) (assign_title_ (bundle_title bundle))
       (assign_valid_ true s))))))))))).
Proof.
  intros H. unfold MergeFromSimpleMetaBundle. rewrite H. reflexivity.
Qed.

Lemma member_through_when (A : Type) (member : Private -> A) (c : bool)
    (f : Private -> Private) (d : Private) :
  (forall d', member (f d') = member d') -> member (when c f d) = member d.
Proof.
  intros H. unfold when. destruct c; [apply H | reflexivity].
Qed.

Ltac through_steps member :=
  repeat (rewrite (member_through_when _ member) by reflexivity).

(** X13.  [MergeFromSimpleMetaBundle] never writes [bitdepth_]: the member
    is as before whatever the bundle holds, and a bit depth the bundle
    gives is stored in [samplerate_], over the bundle's sample rate. *)
Theorem MergeFromSimpleMetaBundle_bitdepth (scheme : QUrl -> QString)
    (bundle : SimpleMetaBundle) (s : Song) :
  bitdepth (MergeFromSimpleMetaBundle scheme bundle s) = bitdepth s
  /\ (init_from_file_ s = false -> scheme (url_ s) <> "file" ->
      bundle_bitdepth bundle <> EmptyString ->
      samplerate (MergeFromSimpleMetaBundle scheme bundle s)
      = QString_toInt (bundle_bitdepth bundle)).
Proof.
  split.
  - destruct (init_from_file_ s || String.eqb (scheme (url_ s)) "file") eqn:G.
    + unfold MergeFromSimpleMetaBundle. now rewrite G.
    + rewrite MergeFromSimpleMetaBundle_steps by exact G. unfold bitdepth.
      through_steps bitdepth_. reflexivity.
  - intros Hf Hs Hb. apply String.eqb_neq in Hs, Hb.
    rewrite MergeFromSimpleMetaBundle_steps by (now rewrite Hf, Hs).
    unfold samplerate. do 3 (rewrite (member_through_when _ samplerate_) by reflexivity).
    unfold isEmpty at 1. rewrite Hb. reflexivity.
Qed.

(** X14.  Past its guard, [MergeFromSimpleMetaBundle] marks the record
    valid and leaves the members the engine does not report as they were;
    with a bundle that holds nothing it changes nothing else. *)
Theorem MergeFromSimpleMetaBundle_frame (scheme : QUrl -> QString)
    (bundle : SimpleMetaBundle) (s : Song) :
  init_from_file_ s = false -> scheme (url_ s) <> "file" ->
  let m := MergeFromSimpleMetaBundle scheme bundle s in
  is_valid m = true
  /\ (id m = id s /\ url m = url s /\ beginning_nanosec m = beginning_nanosec s
      /\ albumartist m = albumartist s /\ composer m = composer s /\ disc m = disc s
      /\ originalyear m = originalyear s /\ filetype m = filetype s
      /\ playcount m = playcount s /\ skipcount m = skipcount s
      /\ lastplayed m = lastplayed s /\ art_automatic m = art_automatic s
      /\ art_manual m = art_manual s /\ cue_path m = cue_path s
      /\ is_compilation m = is_compilation s)
  /\ (bundle = mkSimpleMetaBundle EmptyString EmptyString EmptyString EmptyString
                 EmptyString EmptyString EmptyString EmptyString EmptyString EmptyString
                 EmptyString ->
      m = set_valid true s).
Proof.
  intros Hf Hs m. subst m. apply String.eqb_neq in Hs.
  rewrite MergeFromSimpleMetaBundle_steps by (now rewrite Hf, Hs).
  unfold is_valid, id, url, beginning_nanosec, albumartist, composer, disc, originalyear,
    filetype, playcount, skipcount, lastplayed, art_automatic, art_manual, cue_path,
    is_compilation.
  through_steps valid_. through_steps id_. through_steps url_. through_steps beginning_.
  through_steps albumartist_. through_steps composer_. through_steps disc_.
  through_steps originalyear_. through_steps filetype_. through_steps playcount_.
  through_steps skipcount_. through_steps lastplayed_. through_steps art_automatic_.
  through_steps art_manual_. through_steps cue_path_. through_steps compilation_.
  through_steps compilation_detected_. through_steps compilation_on_.
  through_steps compilation_off_.
  repeat split.
  intros ->. reflexivity.
Qed.

Lemma MergeFromSimpleMetaBundle_frame_witness :
  let m := MergeFromSimpleMetaBundle Samples.sample_scheme Samples.stream_bundle
             Samples.stream_track in
  Samples.sample_scheme (url_ Samples.stream_track) = "http"
  /\ is_valid m = true /\ title m = "Live" /\ url m = url Samples.stream_track.
Proof.
  assert (Hf : init_from_file_ Samples.stream_track = false) by reflexivity.
  assert (Hs : Samples.sample_scheme (url_ Samples.stream_track) <> "file") by discriminate.
  pose proof (MergeFromSimpleMetaBundle_frame Samples.sample_scheme Samples.stream_bundle
                Samples.stream_track Hf Hs) as H.
  split; [reflexivity|].
  split; [exact (proj1 H)|].
  split; [reflexivity|].
  exact (proj1 (proj2 (proj1 (proj2 H)))).
Defined.

(** ** The wire adapter, continued *)

Ltac evaluate_by_value :=
  cbv -[intval notnullintval wrap64 Z.add Z.sub stored_filename number parse_number wrap32
        effective_originalyear effective_albumartist is_compilation adopted_cover
        tostr toint tolonglong value toBool].


(** The members [InitFromProtobuf] does not write. *)
Lemma InitFromProtobuf_kept (env : Env) (pb : SongMetadata) (s : Song) :
  let r := InitFromProtobuf env pb s in
  init_from_file_ r = true
  /\ (id_ r = id_ s /\ album_id_ r = album_id_ s /\ directory_id_ r = directory_id_ s
      /\ unavailable_ r = unavailable_ s
      /\ compilation_detected_ r = compilation_detected_ s
      /\ compilation_on_ r = compilation_on_ s /\ compilation_off_ r = compilation_off_ s
      /\ image_ r = image_ s)
  /\ (valid_ r = pb_valid pb /\ suspicious_tags_ r = pb_suspicious_tags pb
      /\ basefilename_ r = pb_basefilename pb
      /\ filetype_ r = FileType_of_int env (pb_filetype pb))
  /\ (kIsPortable env = false -> url_ r = pb_url pb).
Proof.
  intros r. subst r. unfold InitFromProtobuf. cbv zeta. rewrite InitArtManual_assigns.
  unfold has_art_automatic, has_playcount, pb_art_automatic, pb_playcount.
  destruct env as [[|] ? ? ? ? ? ? ? ?], (pb_art_automatic_opt pb), (pb_playcount_opt pb).
  all: evaluate_by_value.
  all: repeat match goal with |- _ /\ _ => split end.
  all: try reflexivity.
  all: intros H; discriminate H.
Qed.

(** X15.  Outside portable mode and with a numbering of [FileType] that
    reads back what it wrote, a record populated by [InitFromProtobuf] goes
    through [ToProtobuf] and [InitFromProtobuf] unchanged in every member,
    not only in its metadata. *)
Theorem wire_round_trip_identity (env : Env) (pb : SongMetadata) (g g' : Z) :
  kIsPortable env = false ->
  (forall n : Z,
      FileType_of_int env (int_of_FileType env (FileType_of_int env n))
      = FileType_of_int env n) ->
  let s := InitFromProtobuf env pb (Song_ctor g) in
  InitFromProtobuf env (ToProtobuf env s) (Song_ctor g') = s.
Proof.
  intros Hp Hft s.
  pose proof (InitFromProtobuf_members env pb (Song_ctor g)) as M.
  pose proof (InitFromProtobuf_kept env pb (Song_ctor g)) as K.
  cbv zeta in M, K. fold s in M, K.
  pose proof (InitFromProtobuf_members env (ToProtobuf env s) (Song_ctor g')) as M'.
  pose proof (InitFromProtobuf_kept env (ToProtobuf env s) (Song_ctor g')) as K'.
  cbv zeta in M', K'.
  set (s' := InitFromProtobuf env (ToProtobuf env s) (Song_ctor g')) in *.
  clearbody s'. clearbody s.
  destruct M as ((?&?&?&?&?&?&?&?&?) & (?&?&?&?&?&?&?&?&?&?&?&?) & ? & (?&?&?) & ? & ? & ?).
  destruct K as (? & (?&?&?&?&?&?&?&?) & (?&?&?&Kft) & Ku).
  destruct M' as ((?&?&?&?&?&?&?&?&?) & (?&?&?&?&?&?&?&?&?&?&?&?) & ? & (?&He&?) & ?
                  & ? & ?).
  destruct K' as (? & (?&?&?&?&?&?&?&?) & (?&?&?&?) & Ku').
  specialize (Ku Hp). specialize (Ku' Hp).
  cbn [ToProtobuf pb_valid pb_title pb_album pb_artist pb_albumartist pb_composer pb_performer
       pb_grouping pb_track pb_disc pb_year pb_originalyear pb_genre pb_comment pb_compilation
       pb_playcount_opt pb_skipcount pb_lastplayed pb_length_nanosec pb_bitrate pb_samplerate
       pb_bitdepth pb_url pb_basefilename pb_mtime pb_ctime pb_filesize pb_suspicious_tags
       pb_art_automatic_opt pb_filetype DataCommaSizeFromQString toEncoded] in *.
  cbn [Song_ctor Private_ctor id_ album_id_ directory_id_ unavailable_ compilation_detected_
       compilation_on_ compilation_off_ image_ beginning_ cue_path_ art_manual_ art_automatic_
       playcount_] in *.
  assert (Eend : end_ s' = end_ s).
  { rewrite He. unfold length_nanosec.
    replace (end_ s) with (wrap64 (0 + pb_length_nanosec pb)) by (symmetry; assumption).
    replace (beginning_ s) with 0 by (symmetry; assumption).
    rewrite !Z.add_0_l, Z.sub_0_r, !wrap64_idem. reflexivity. }
  assert (Eft : filetype_ s' = filetype_ s).
  { replace (filetype_ s) with (FileType_of_int env (pb_filetype pb)) by (symmetry; exact Kft).
    rewrite <- Hft. congruence. }
  destruct s, s'. cbn in *. subst. rewrite Eend, Eft. reflexivity.
Qed.

Lemma wire_round_trip_identity_witness :
  let env := Samples.installed false in
  let s := InitFromProtobuf env Samples.sample_message (Song_ctor 0) in
  filetype s = Type_Flac
  /\ InitFromProtobuf env (ToProtobuf env s) (Song_ctor 7) = s.
Proof.
  split; [reflexivity|].
  apply (wire_round_trip_identity (Samples.installed false) Samples.sample_message 0 7).
  - reflexivity.
  - intros n.
    assert (H : forall t, Samples.sample_FileType_of_int (Samples.sample_int_of_FileType t) = t)
      by (intros t; destruct t; reflexivity).
    apply H.
Defined.

(** X16.  [InitFromProtobuf] marks the record as loaded from a file and
    leaves the members the message does not carry as they were: the ids,
    [beginning_], the CUE path, the availability and the compilation flags
    set by the scanner and the user; the play count and the automatic cover
    stay as well when the message has none. *)
Theorem InitFromProtobuf_frame (env : Env) (pb : SongMetadata) (s : Song) :
  let r := InitFromProtobuf env pb s in
  init_from_file_ r = true
  /\ (id r = id s /\ album_id r = album_id s /\ directory_id r = directory_id s
      /\ beginning_nanosec r = beginning_nanosec s /\ cue_path r = cue_path s
      /\ is_unavailable r = is_unavailable s
      /\ compilation_detected_ r = compilation_detected_ s
      /\ compilation_on_ r = compilation_on_ s /\ compilation_off_ r = compilation_off_ s
      /\ image r = image s)
  /\ (has_playcount pb = false -> playcount r = playcount s)
  /\ (has_art_automatic pb = false -> art_automatic r = art_automatic s)
  /\ length_nanosec r = wrap64 (pb_length_nanosec pb).
Proof.
  intros r.
  pose proof (InitFromProtobuf_members env pb s) as M.
  pose proof (InitFromProtobuf_kept env pb s) as K.
  cbv zeta in M, K. fold r in M, K. clearbody r.
  destruct M as (_ & _ & _ & (Hb&He&Hc) & Haa & Hpc & _).
  destruct K as (Hi & (?&?&?&?&?&?&?&?) & _).
  unfold id, album_id, directory_id, beginning_nanosec, cue_path, is_unavailable, image,
    playcount, art_automatic, has_playcount, has_art_automatic.
  repeat match goal with |- _ /\ _ => split end; try assumption.
  - intros Hn. rewrite Hpc. destruct (pb_playcount_opt pb); [discriminate Hn | reflexivity].
  - intros Hn. rewrite Haa. destruct (pb_art_automatic_opt pb); [discriminate Hn | reflexivity].
  - unfold length_nanosec. rewrite He, Hb, wrap64_sub_l. f_equal. ring.
Qed.

(** ** Timing, continued *)

(** X17.  [set_beginning_nanosec] never leaves a negative beginning.
    Setting the length after the beginning gives that length; setting the
    beginning after the length keeps the end and so changes the length by
    the distance the beginning moved. *)
Theorem set_beginning_and_set_length (s : Song) (b L : Z) :
  in_int64 L ->
  0 <= beginning_nanosec (set_beginning_nanosec b s)
  /\ length_nanosec (set_length_nanosec L (set_beginning_nanosec b s)) = L
  /\ end_nanosec (set_beginning_nanosec b (set_length_nanosec L s))
     = end_nanosec (set_length_nanosec L s)
  /\ length_nanosec (set_beginning_nanosec b (set_length_nanosec L s))
     = wrap64 (L + (beginning_nanosec s - Z.max 0 b)).
Proof.
  intros HL. split; [|split; [|split]].
  - cbn. lia.
  - unfold length_nanosec, set_length_nanosec. cbn. rewrite wrap64_sub_l.
    replace (Z.max 0 b + L - Z.max 0 b) with L by ring. now apply wrap64_in_range.
  - reflexivity.
  - unfold length_nanosec, set_beginning_nanosec, set_length_nanosec, beginning_nanosec.
    cbn. rewrite wrap64_sub_l. f_equal. ring.
Qed.

Lemma set_beginning_and_set_length_witness :
  in_int64 250000
  /\ length_nanosec (set_length_nanosec 250000 (set_beginning_nanosec (-5) Samples.fresh))
     = 250000
  /\ length_nanosec (set_beginning_nanosec 7000 (set_length_nanosec 250000 Samples.fresh))
     = wrap64 (250000 + (beginning_nanosec Samples.fresh - Z.max 0 7000)).
Proof.
  assert (H : in_int64 250000) by (unfold in_int64; lia).
  split; [exact H|].
  split.
  - exact (proj1 (proj2 (set_beginning_and_set_length Samples.fresh (-5) 250000 H))).
  - exact (proj2 (proj2 (proj2 (set_beginning_and_set_length Samples.fresh 7000 250000 H)))).
Defined.

(** ** A full row *)

(** X18.  A row that holds every column populates the record: what
    [InitFromQuery] returns depends on the record it is called on only
    through [album_id_], [image_] and [suspicious_tags_], the three
    members no column and no statement of the function writes. *)
Theorem InitFromQuery_full_row_overwrites (env : Env) (q : SqlRow) (reliable : bool)
    (col : Z) (s0 s0' : Song) :
  col + 38 < size q ->
  album_id_ s0 = album_id_ s0' -> image_ s0 = image_ s0' ->
  suspicious_tags_ s0 = suspicious_tags_ s0' ->
  InitFromQuery env q reliable col s0 = InitFromQuery env q reliable col s0'.
Proof.
  intros Hsize Ha Hi Hs.
  enough (E : fst (InitFromQuery env q reliable col s0)
              = fst (InitFromQuery env q reliable col s0')).
  { rewrite (surjective_pairing (InitFromQuery env q reliable col s0)).
    rewrite (surjective_pairing (InitFromQuery env q reliable col s0')).
    rewrite E, !InitFromQuery_log. reflexivity. }
  rewrite !InitFromQuery_fst, !InitArtManual_assigns.
  unfold kColumns.
  rewrite !InitFromQuery_loop_visit by lia.
  cbn [InitFromQuery_loop].
  destruct s0, s0'. cbn [album_id_ image_ suspicious_tags_] in Ha, Hi, Hs. subst.
  destruct env as [[|] ? ? ? ? ? ? ? ?]; evaluate; reflexivity.
Qed.

Lemma InitFromQuery_full_row_overwrites_witness :
  0 + 38 < size Samples.full_row
  /\ InitFromQuery (Samples.installed false) Samples.full_row true 0 Samples.fresh
     = InitFromQuery (Samples.installed false) Samples.full_row true 0
         Samples.cue_track_one.
Proof.
  assert (H : 0 + 38 < size Samples.full_row) by reflexivity.
  split; [exact H|].
  apply (InitFromQuery_full_row_overwrites (Samples.installed false) Samples.full_row true 0
           Samples.fresh Samples.cue_track_one H); reflexivity.
Defined.

(** ** The derived columns *)

(** X19.  What [BindToQuery] stores in the derived columns: the
    compilation state [is_compilation] computes, the effective album
    artist, and for the original year the member itself when positive, the
    year passed through [intval] when the member is negative, and -1 when
    the member is 0, whatever the year. *)
Theorem BindToQuery_derived_columns (env : Env) (s : Song) (query : QSqlQuery) :
  let bound := BindToQuery env s query in
  boundValue ":compilation_effective" bound = QV_Int (if is_compilation s then 1 else 0)
  /\ boundValue ":effective_albumartist" bound
     = QV_String (if isEmpty (albumartist s) then artist s else albumartist s)
  /\ boundValue ":effective_originalyear" bound
     = QV_Int (if 0 <? originalyear s then originalyear s
               else if originalyear s =? 0 then -1
               else intval (year s)).
Proof.
  intros bound. subst bound. rewrite BindToQuery_bind_all, !boundValue_bind_all.
  split; [reflexivity|]. split; [reflexivity|].
  cbn [bindings last_bound String.eqb Ascii.eqb Bool.eqb]. f_equal.
  unfold effective_originalyear, intval, originalyear, year.
  destruct (0 <? originalyear_ s) eqn:P.
  - apply Z.ltb_lt in P.
    destruct (originalyear_ s <? 0) eqn:N; [apply Z.ltb_lt in N; lia|].
    destruct (originalyear_ s <=? 0) eqn:L; [apply Z.leb_le in L; lia | reflexivity].
  - apply Z.ltb_ge in P.
    destruct (originalyear_ s =? 0) eqn:E.
    + apply Z.eqb_eq in E. rewrite E. reflexivity.
    + apply Z.eqb_neq in E.
      destruct (originalyear_ s <? 0) eqn:N; [reflexivity | apply Z.ltb_ge in N; lia].
Qed.

(** ** The MTP adapter *)

Lemma wrap32_of_uint32 (x : Z) : in_int32 x -> wrap32 (x mod 2 ^ 32) = x.
Proof.
  unfold in_int32, wrap32, wrap. intros H. change (32 - 1) with 31.
  rewrite Zplus_mod_idemp_l, Z.mod_small; lia.
Qed.

Lemma wrap32_of_uint64 (x : Z) : in_int32 x -> wrap32 (x mod 2 ^ 64) = x.
Proof.
  unfold in_int32, wrap32, wrap. intros H. change (32 - 1) with 31.
  rewrite <- (Zplus_mod_idemp_l (x mod 2 ^ 64)).
  rewrite (Z.mod_mod_divide x (2 ^ 64) (2 ^ 32)) by (exists (2 ^ 32); reflexivity).
  rewrite Zplus_mod_idemp_l, Z.mod_small; lia.
Qed.

Lemma wrap32_in_range (x : Z) : in_int32 x -> wrap32 x = x.
Proof.
  unfold in_int32, wrap32, wrap. intros H. change (32 - 1) with 31.
  rewrite Z.mod_small; lia.
Qed.

(** X20.  Written by [ToMTP] and read back by [InitFromMTP], the file
    type is kept for MP4, MPEG, Ogg FLAC, Ogg Vorbis and WAV; FLAC comes
    back as Ogg FLAC, Ogg Speex as Ogg Vorbis, and every other type, ASF
    included, as unknown. *)
Theorem MTP_round_trip_filetype (mtp_url : QString -> Z -> QUrl) (s s0 : Song)
    (device_track : LIBMTP_track_t) (host : QString) :
  let r := InitFromMTP mtp_url (ToMTP s device_track) host s0 in
  filetype r
  = match filetype s with
    | Type_Mp4 => Type_Mp4
    | Type_Mpeg => Type_Mpeg
    | Type_Flac | Type_OggFlac => Type_OggFlac
    | Type_OggSpeex | Type_OggVorbis => Type_OggVorbis
    | Type_Wav => Type_Wav
    | _ => Type_Unknown
    end
  /\ (filetype r = filetype s
      <-> In (filetype s)
            [Type_Mp4; Type_Mpeg; Type_OggFlac; Type_OggVorbis; Type_Wav; Type_Unknown]).
Proof.
  intros r. subst r. unfold InitFromMTP, ToMTP, filetype. cbn [mtp_filetype].
  destruct (filetype_ s); cbv zeta; cbn [filetype_ assign_filetype_].
  all: split; [reflexivity|].
  all: split; [intros H; try discriminate H; cbn; tauto|].
  all: intros H; cbn in H; try reflexivity.
  all: repeat (destruct H as [H | H]; [discriminate H|]); destruct H.
Qed.

(** X21.  Written by [ToMTP] and read back by [InitFromMTP]: text comes
    back up to its first zero byte; file size, modification time, bit rate,
    sample rate and play count come back as written when they are values
    of [int]; the creation time becomes the modification time; the track
    number comes back modulo 2^16, so -1 reads 65535; the bit depth reads
    0; and the length comes back in whole milliseconds. *)
Theorem MTP_round_trip_members (mtp_url : QString -> Z -> QUrl) (s s0 : Song)
    (device_track : LIBMTP_track_t) (host : QString) :
  in_int32 (filesize s) -> in_int32 (mtime_ s) -> in_int32 (bitrate s) ->
  in_int32 (samplerate s) -> in_int32 (playcount s) ->
  let r := InitFromMTP mtp_url (ToMTP s device_track) host s0 in
  (title r = c_str (title s) /\ artist r = c_str (artist s) /\ album r = c_str (album s)
   /\ genre r = c_str (genre s) /\ composer r = c_str (composer s))
  /\ (filesize r = filesize s /\ mtime_ r = mtime_ s /\ ctime_ r = mtime_ s
      /\ bitrate r = bitrate s /\ samplerate r = samplerate s /\ playcount r = playcount s)
  /\ (track r = track s mod 2 ^ 16 /\ (track s = -1 -> track r = 65535))
  /\ bitdepth r = 0
  /\ length_nanosec r = (Z.quot (length_nanosec s) kNsecPerMsec mod 2 ^ 32) * kNsecPerMsec
  /\ is_valid r = true.
Proof.
  intros Hfs Hmt Hbr Hsr Hpc r. subst r.
  unfold filesize, bitrate, samplerate, playcount in *.
  unfold InitFromMTP, ToMTP. cbn [mtp_filetype]. cbv zeta.
  unfold title, artist, album, genre, composer, filesize, bitrate, samplerate, playcount,
    track, bitdepth, is_valid.
  destruct (filetype_ s).
  all: cbn [title_ artist_ album_ genre_ composer_ filesize_ mtime_ ctime_ bitrate_
            samplerate_ playcount_ track_ bitdepth_ valid_ assign_filetype_ assign_playcount_
            assign_bitrate_ assign_bitdepth_ assign_samplerate_ set_length_nanosec
            assign_end_ assign_ctime_ assign_mtime_ assign_filesize_ assign_basefilename_
            assign_url_ assign_track_ assign_composer_ assign_genre_ assign_album_
            assign_artist_ assign_title_ assign_valid_ mtp_title mtp_artist mtp_album
            mtp_genre mtp_composer tracknumber mtp_filesize modificationdate mtp_samplerate
            mtp_bitrate usecount strdup fromUtf8].
  all: rewrite (wrap32_of_uint64 _ Hfs), (wrap32_in_range _ Hmt), (wrap32_of_uint32 _ Hbr),
         (wrap32_of_uint32 _ Hsr), (wrap32_of_uint32 _ Hpc).
  all: repeat match goal with |- _ /\ _ => split end; try reflexivity.
  all: try (intros ->; reflexivity).
  all: unfold length_nanosec;
    lazy -[wrap64 Z.add Z.sub Z.mul Z.quot Z.modulo Z.pow Z.le Z.lt];
    rewrite wrap64_sub_l;
    match goal with
    | |- wrap64 (?b + ?v - ?b) = _ => replace (b + v - b) with v by ring
    end;
    apply wrap64_in_range; unfold in_int64;
    match goal with
    | |- _ <= ?d mod 2 ^ 32 * _ < _ =>
        pose proof (Z.mod_pos_bound d (2 ^ 32) ltac:(lia)); lia
    end.
Qed.

Lemma MTP_round_trip_members_witness :
  let r := InitFromMTP Samples.sample_mtp_url
             (ToMTP Samples.tagged_track Samples.blank_mtp_track) "player" Samples.fresh in
  in_int32 (filesize Samples.tagged_track)
  /\ track r = track Samples.tagged_track mod 2 ^ 16
  /\ bitdepth r = 0
  /\ filesize r = filesize Samples.tagged_track.
Proof.
  assert (H1 : in_int32 (filesize Samples.tagged_track)) by (split; [apply Z.leb_le | apply Z.ltb_lt]; reflexivity).
  assert (H2 : in_int32 (mtime_ Samples.tagged_track)) by (split; [apply Z.leb_le | apply Z.ltb_lt]; reflexivity).
  assert (H3 : in_int32 (bitrate Samples.tagged_track)) by (split; [apply Z.leb_le | apply Z.ltb_lt]; reflexivity).
  assert (H4 : in_int32 (samplerate Samples.tagged_track)) by (split; [apply Z.leb_le | apply Z.ltb_lt]; reflexivity).
  assert (H5 : in_int32 (playcount Samples.tagged_track)) by (split; [apply Z.leb_le | apply Z.ltb_lt]; reflexivity).
  pose proof (MTP_round_trip_members Samples.sample_mtp_url Samples.tagged_track
                Samples.fresh Samples.blank_mtp_track "player" H1 H2 H3 H4 H5) as H.
  cbv zeta in H. cbv zeta.
  split; [exact H1|].
  split; [exact (proj1 (proj1 (proj2 (proj2 H))))|].
  split; [exact (proj1 (proj2 (proj2 (proj2 H))))|].
  exact (proj1 (proj1 (proj2 H))).
Defined.

End SongProperties.
